(** * StScrollView: layout negotiation and scrollbar visibility

    A shallow embedding of [src/st/st-scroll-view.c] (gnome-shell's
    single-child scrollable container) and the properties of it that the
    design description states.

    Conventions of the embedding.
    - A [gfloat] that the layout code computes with (coordinates, sizes,
      scrollbar thicknesses) is an IEEE 754 binary32 value, a [spec_float]
      at precision 24. [fadd] and [fsub] are the C [+] and [-] on [float]
      operands, each rounded to the nearest float (ties to even) as it is
      evaluated, that is [FLT_EVAL_METHOD] 0 under the default rounding
      mode; [fgt] is the C [>]. An [int] constant among [float] operands is
      converted by [gfloat_of_int].
    - Row and column sizes, step increments, scroll deltas and fade margins
      are never added or subtracted here: they are compared with 0,
      multiplied by -1, copied or widened to [double], all of which is
      exact. They are modelled by their value, a rational [Q], with the
      boolean test [a <? b] for the C comparison [a < b]. The one inexact
      step on them, the narrowing of a [double] to a [float], is a function
      the caller supplies.
    - A [gboolean] argument is a [gint], modelled as [Z]; a one-bit field
      [guint f : 1] is a [bool], and storing an integer into it keeps the
      integer's lowest bit.
    - A [ClutterActor *] is [option ActorId]: [None] is [NULL], [Some a] the
      actor whose identity is [a].
    - Everything the widget asks of its collaborators (the child, the two
      scrollbar actors, the theme node, Clutter itself) is read from a
      [Scene]; everything it does to them is recorded, in call order, in a
      log of [Effect]s.
    - A C function that reads or writes [StScrollViewPrivate] is a
      computation in the monad [M]: it takes the private data, and either
      returns a value with the new private data and the log of its effects,
      or aborts the process (a failed [g_assert]). *)

From Stdlib Require Import ZArith QArith Lqa Lia Bool List SpecFloat.
Import ListNotations.

Set Implicit Arguments.
Local Open Scope Q_scope.

(** ** Numbers *)

(** [a < b] on quantities modelled by their exact value. *)
Definition Qltb (a b : Q) : bool := negb (Qle_bool b a).

Infix "<?" := Qltb (at level 70, no associativity) : Q_scope.

(** A [gfloat]: an IEEE 754 binary32 value (24 bits of precision, exponents
    below 128), infinities, signed zeros and NaN included. *)
Definition gfloat : Set := spec_float.

(** [a + b] and [a - b] on two [float]s: the exact sum or difference,
    rounded to the nearest float. *)
Definition fadd (a b : gfloat) : gfloat := SFadd 24 128 a b.
Definition fsub (a b : gfloat) : gfloat := SFsub 24 128 a b.

(** [a > b] on two [float]s; false when either is NaN. *)
Definition fgt (a b : gfloat) : bool := SFltb b a.

(** The conversion of an [int] to [float]. *)
Definition gfloat_of_int (z : Z) : gfloat := binary_normalize 24 128 z 0 false.

(** [px n], in statements and examples: [n] as a [float], a whole number of
    pixels. *)
Abbreviation px := gfloat_of_int (only parsing).

Arguments fadd : simpl never.
Arguments fsub : simpl never.
Arguments fgt : simpl never.
Arguments gfloat_of_int : simpl never.

(** GLib's [MAX (a, b)], that is [((a) > (b)) ? (a) : (b)]. *)
Definition MAX (a b : gfloat) : gfloat := if fgt a b then a else b.

(** Two floats that are the same value: identical, or equal as C's [==]
    has it (which makes one value of +0 and -0). *)
Definition same_value (a b : gfloat) : Prop := a = b \/ SFeqb a b = true.

(** ** Clutter and St types the widget uses *)

Definition ActorId := positive.

(** [StPolicyType]. The type has exactly the enumeration's four values, so
    the [default: g_warn_if_reached ()] arms of the switches over a policy
    have no counterpart here. *)
Inductive StPolicyType : Set :=
| ST_POLICY_ALWAYS
| ST_POLICY_AUTOMATIC
| ST_POLICY_NEVER
| ST_POLICY_EXTERNAL.

Definition policy_eqb (p q : StPolicyType) : bool :=
  match p, q with
  | ST_POLICY_ALWAYS, ST_POLICY_ALWAYS
  | ST_POLICY_AUTOMATIC, ST_POLICY_AUTOMATIC
  | ST_POLICY_NEVER, ST_POLICY_NEVER
  | ST_POLICY_EXTERNAL, ST_POLICY_EXTERNAL => true
  | _, _ => false
  end.

Inductive ClutterTextDirection : Set :=
| CLUTTER_TEXT_DIRECTION_DEFAULT
| CLUTTER_TEXT_DIRECTION_LTR
| CLUTTER_TEXT_DIRECTION_RTL.

Definition is_rtl (d : ClutterTextDirection) : bool :=
  match d with CLUTTER_TEXT_DIRECTION_RTL => true | _ => false end.

Inductive ClutterRequestMode : Set :=
| CLUTTER_REQUEST_HEIGHT_FOR_WIDTH
| CLUTTER_REQUEST_WIDTH_FOR_HEIGHT
| CLUTTER_REQUEST_CONTENT_SIZE.

Inductive ClutterScrollDirection : Set :=
| CLUTTER_SCROLL_UP
| CLUTTER_SCROLL_DOWN
| CLUTTER_SCROLL_LEFT
| CLUTTER_SCROLL_RIGHT
| CLUTTER_SCROLL_SMOOTH.

Record ClutterActorBox : Set :=
  mkBox { x1 : gfloat; y1 : gfloat; x2 : gfloat; y2 : gfloat }.

(** A scroll event, as the handler reads it: whether
    [CLUTTER_EVENT_FLAG_POINTER_EMULATED] is among its flags, its scroll
    direction and its smooth deltas. *)
Record ClutterEvent : Set := mkEvent {
  pointer_emulated : bool;
  scroll_direction : ClutterScrollDirection;
  scroll_delta : Q * Q
}.

(** An [StAdjustment], as far as the widget looks into it: the value of its
    [step-increment] property. *)
Record StAdjustment : Set := mkAdjustment { step_increment : Q }.

(** The properties the widget notifies. *)
Inductive Property : Set :=
| PROP_HSCROLLBAR_POLICY
| PROP_VSCROLLBAR_POLICY
| PROP_HSCROLLBAR_VISIBLE
| PROP_VSCROLLBAR_VISIBLE
| PROP_MOUSE_SCROLL
| PROP_OVERLAY_SCROLLBARS.

(** Which of the two adjustments a call is made on. *)
Inductive Axis : Set := Horizontal | Vertical.

(** [struct _StScrollViewPrivate] (the fade effect apart). *)
Record StScrollViewPrivate : Set := mkPriv {
  child : option ActorId;
  hadjustment : StAdjustment;
  hscroll : option ActorId;
  vadjustment : StAdjustment;
  vscroll : option ActorId;
  hscrollbar_policy : StPolicyType;
  vscrollbar_policy : StPolicyType;
  row_size : Q;
  column_size : Q;
  row_size_set : bool;
  column_size_set : bool;
  mouse_scroll : bool;
  overlay_scrollbars : bool;
  hscrollbar_visible : bool;
  vscrollbar_visible : bool
}.

(** ** Collaborators *)

(** What the widget reads from outside itself during a call. None of it is
    changed by the widget's own layout code. *)
Record Scene : Type := mkScene {
  (* clutter_actor_is_visible (a), for a non-NULL actor *)
  actor_is_visible : ActorId -> bool;
  (* clutter_actor_get_preferred_width (a, for_height, &min, &natural) *)
  actor_preferred_width : ActorId -> gfloat -> gfloat * gfloat;
  (* clutter_actor_get_preferred_height (a, for_width, &min, &natural) *)
  actor_preferred_height : ActorId -> gfloat -> gfloat * gfloat;
  (* ST_IS_SCROLLABLE (a) *)
  actor_is_scrollable : ActorId -> bool;
  (* clutter_actor_get_text_direction (view) *)
  text_direction : ClutterTextDirection;
  (* clutter_actor_get_request_mode (view) *)
  request_mode : ClutterRequestMode;
  (* st_theme_node_get_content_box (theme_node, box, &content_box) *)
  theme_content_box : ClutterActorBox -> ClutterActorBox;
  (* st_theme_node_adjust_for_height / _for_width (theme_node, &for_size) *)
  theme_adjust_for_height : gfloat -> gfloat;
  theme_adjust_for_width : gfloat -> gfloat;
  (* st_theme_node_adjust_preferred_width / _height (theme_node, min_p, natural_p):
     the contents of the two locations before and after; None is a NULL pointer *)
  theme_adjust_preferred_width :
    option gfloat -> option gfloat -> option gfloat * option gfloat;
  theme_adjust_preferred_height :
    option gfloat -> option gfloat -> option gfloat * option gfloat
}.

(** What the widget does to the outside, one constructor per call. *)
Inductive Effect : Type :=
| GetPreferredWidth (a : ActorId) (for_height : gfloat)
| GetPreferredHeight (a : ActorId) (for_width : gfloat)
| SetAllocation (box : ClutterActorBox)
| Allocate (a : option ActorId) (box : ClutterActorBox)
| FreezeNotify
| ThawNotify
| NotifyByPspec (p : Property)
| QueueRelayout
| SetReactive (b : bool)
| AdjustForScrollEvent (adj : Axis) (delta : Q)
| ParentAdd (a : ActorId)
| ParentRemove (a : ActorId)
| SetAdjustments (a : ActorId) (attached : bool)
| RemoveChild (a : ActorId)
| Warning.

(** ** The monad of the widget's methods *)

Inductive Outcome (A : Type) : Type :=
| Returns (a : A) (priv : StScrollViewPrivate) (log : list Effect)
| Aborts (log : list Effect).

Arguments Aborts {A} log.

Definition M (A : Type) : Type := StScrollViewPrivate -> Outcome A.

Definition ret {A} (a : A) : M A := fun priv => Returns a priv [].

Definition bind {A B} (m : M A) (f : A -> M B) : M B :=
  fun priv =>
    match m priv with
    | Returns a priv' l =>
        match f a priv' with
        | Returns b priv'' l' => Returns b priv'' (l ++ l')
        | Aborts l' => Aborts (l ++ l')
        end
    | Aborts l => Aborts l
    end.

Declare Scope m_scope.
Delimit Scope m_scope with m.
Notation "x <- m ;; k" := (bind m (fun x => k))
  (at level 61, m at next level, right associativity) : m_scope.
Notation "' pat <- m ;; k" := (bind m (fun x => let 'pat := x in k))
  (at level 61, pat pattern, m at next level, right associativity) : m_scope.
Notation "m ;; k" := (bind m (fun _ => k))
  (at level 61, right associativity) : m_scope.
Local Open Scope m_scope.

(** [priv = ST_SCROLL_VIEW (actor)->priv] *)
Definition get_priv : M StScrollViewPrivate := fun priv => Returns priv priv [].
Definition emit (e : Effect) : M unit := fun priv => Returns tt priv [e].
Definition abort {A} : M A := fun _ => Aborts [].

(** [g_assert (expr)]: aborts the process when [expr] is false. *)
Definition g_assert (expr : bool) : M unit := if expr then ret tt else abort.

(** [g_assert_not_reached ()] *)
Definition g_assert_not_reached {A} : M A := abort.

(** [if (c) body] for a statement [body]. *)
Definition when (c : bool) (body : M unit) : M unit := if c then body else ret tt.

(** ** Calls on collaborators *)

Section Widget.

Variable scene : Scene.

Definition clutter_actor_get_preferred_width (a : ActorId) (for_height : gfloat)
  : M (gfloat * gfloat) :=
  emit (GetPreferredWidth a for_height) ;;
  ret (actor_preferred_width scene a for_height).

Definition clutter_actor_get_preferred_height (a : ActorId) (for_width : gfloat)
  : M (gfloat * gfloat) :=
  emit (GetPreferredHeight a for_width) ;;
  ret (actor_preferred_height scene a for_width).

Definition clutter_actor_allocate (a : option ActorId) (box : ClutterActorBox)
  : M unit :=
  emit (Allocate a box).

Definition g_object_notify_by_pspec (p : Property) : M unit :=
  emit (NotifyByPspec p).

(** [if (a)] for a pointer [a]. *)
Definition non_null (a : option ActorId) : bool :=
  match a with
  | Some _ => true
  | None => false
  end.

(** [if (p) *p = v]: the new contents of the location [p] points to. *)
Definition store (p : option gfloat) (v : gfloat) : option gfloat :=
  match p with
  | Some _ => Some v
  | None => None
  end.

(** ** Scrollbar thickness *)

(** [get_scrollbar_width]. [clutter_actor_is_visible] answers [FALSE] for a
    [NULL] actor. The function returns a [double] that every caller stores
    in a [float]: a [float] comes back as it was, the constant as 0. *)
Definition get_scrollbar_width (for_height : gfloat) : M gfloat :=
  priv <- get_priv ;;
  match vscroll priv with
  | Some vs =>
      if actor_is_visible scene vs then
        '(min_size, _) <- clutter_actor_get_preferred_width vs for_height ;;
        ret min_size
      else ret (gfloat_of_int 0)
  | None => ret (gfloat_of_int 0)
  end.

(** [get_scrollbar_height] *)
Definition get_scrollbar_height (for_width : gfloat) : M gfloat :=
  priv <- get_priv ;;
  match hscroll priv with
  | Some hs =>
      if actor_is_visible scene hs then
        '(min_size, _) <- clutter_actor_get_preferred_height hs for_width ;;
        ret min_size
      else ret (gfloat_of_int 0)
  | None => ret (gfloat_of_int 0)
  end.

(** ** Preferred size *)

(** [st_scroll_view_get_preferred_width]. [min_width_p] and
    [natural_width_p] are the caller's two output locations with their
    contents at the call; the result is their contents at the return. *)
Definition st_scroll_view_get_preferred_width
  (for_height : gfloat) (min_width_p natural_width_p : option gfloat)
  : M (option gfloat * option gfloat) :=
  priv <- get_priv ;;
  match child priv with
  | None => ret (min_width_p, natural_width_p)
  | Some ch =>
      let for_height := theme_adjust_for_height scene for_height in
      '(child_min_width, child_natural_width) <-
        clutter_actor_get_preferred_width ch (gfloat_of_int (-1)) ;;
      let natural_width := child_natural_width in
      let min_width :=
        match hscrollbar_policy priv with
        | ST_POLICY_NEVER => child_min_width
        | ST_POLICY_ALWAYS | ST_POLICY_AUTOMATIC | ST_POLICY_EXTERNAL =>
            gfloat_of_int 0
        end in
      let account_for_vscrollbar :=
        match vscrollbar_policy priv with
        | ST_POLICY_NEVER | ST_POLICY_EXTERNAL => false
        | ST_POLICY_ALWAYS => negb (overlay_scrollbars priv)
        | ST_POLICY_AUTOMATIC => negb (overlay_scrollbars priv)
        end in
      '(min_width, natural_width) <-
        (if account_for_vscrollbar then
           sb_width <- get_scrollbar_width for_height ;;
           ret (fadd min_width sb_width, fadd natural_width sb_width)
         else ret (min_width, natural_width)) ;;
      let min_width_p := store min_width_p min_width in
      let natural_width_p := store natural_width_p natural_width in
      ret (theme_adjust_preferred_width scene min_width_p natural_width_p)
  end.

(** [st_scroll_view_get_preferred_height] *)
Definition st_scroll_view_get_preferred_height
  (for_width : gfloat) (min_height_p natural_height_p : option gfloat)
  : M (option gfloat * option gfloat) :=
  priv <- get_priv ;;
  match child priv with
  | None => ret (min_height_p, natural_height_p)
  | Some ch =>
      let for_width := theme_adjust_for_width scene for_width in
      '(child_min_width, _) <-
        clutter_actor_get_preferred_width ch (gfloat_of_int (-1)) ;;
      let min_height_p := store min_height_p (gfloat_of_int 0) in
      sb_width <- get_scrollbar_width (gfloat_of_int (-1)) ;;
      let for_width :=
        match vscrollbar_policy priv with
        | ST_POLICY_NEVER | ST_POLICY_EXTERNAL => for_width
        | ST_POLICY_ALWAYS | ST_POLICY_AUTOMATIC => fsub for_width sb_width
        end in
      let account_for_hscrollbar :=
        match hscrollbar_policy priv with
        | ST_POLICY_NEVER | ST_POLICY_EXTERNAL => false
        | ST_POLICY_ALWAYS => negb (overlay_scrollbars priv)
        | ST_POLICY_AUTOMATIC => negb (overlay_scrollbars priv)
        end in
      '(child_min_height, child_natural_height) <-
        clutter_actor_get_preferred_height ch for_width ;;
      let natural_height := child_natural_height in
      let min_height :=
        match vscrollbar_policy priv with
        | ST_POLICY_NEVER => child_min_height
        | ST_POLICY_ALWAYS | ST_POLICY_AUTOMATIC | ST_POLICY_EXTERNAL =>
            gfloat_of_int 0
        end in
      '(min_height, natural_height) <-
        (if account_for_hscrollbar then
           sb_height <- get_scrollbar_height for_width ;;
           ret (fadd min_height sb_height, fadd natural_height sb_height)
         else ret (min_height, natural_height)) ;;
      let min_height_p := store min_height_p min_height in
      let natural_height_p := store natural_height_p natural_height in
      ret (theme_adjust_preferred_height scene min_height_p natural_height_p)
  end.

(** ** Allocation *)

(** The part of [st_scroll_view_allocate] that decides which scrollbars are
    visible (the [if (priv->child) ... else ...] statement): the pair
    [(hscrollbar_visible, vscrollbar_visible)]. *)
Definition determine_visibility
  (avail_width avail_height sb_width sb_height : gfloat) : M (bool * bool) :=
  priv <- get_priv ;;
  match child priv with
  | Some ch =>
      '(child_min_width, _) <-
        clutter_actor_get_preferred_width ch (gfloat_of_int (-1)) ;;
      if policy_eqb (vscrollbar_policy priv) ST_POLICY_AUTOMATIC then
        if policy_eqb (hscrollbar_policy priv) ST_POLICY_AUTOMATIC then
          (* Pass one, try without a vertical scrollbar *)
          '(child_min_height, _) <-
            clutter_actor_get_preferred_height ch avail_width ;;
          let vscrollbar_visible := fgt child_min_height avail_height in
          let hscrollbar_visible :=
            fgt child_min_width
              (fsub avail_width
                 (if vscrollbar_visible then sb_width else gfloat_of_int 0)) in
          let vscrollbar_visible :=
            fgt child_min_height
              (fsub avail_height
                 (if hscrollbar_visible then sb_height else gfloat_of_int 0)) in
          (* Pass two - if we needed a vertical scrollbar, get a new
             preferred height *)
          if vscrollbar_visible then
            '(child_min_height, _) <-
              clutter_actor_get_preferred_height ch
                (MAX (fsub avail_width sb_width) (gfloat_of_int 0)) ;;
            let hscrollbar_visible :=
              fgt child_min_width (fsub avail_width sb_width) in
            ret (hscrollbar_visible, vscrollbar_visible)
          else ret (hscrollbar_visible, vscrollbar_visible)
        else
          let hscrollbar_visible :=
            policy_eqb (hscrollbar_policy priv) ST_POLICY_ALWAYS in
          (* try without a vertical scrollbar *)
          '(child_min_height, _) <-
            clutter_actor_get_preferred_height ch avail_width ;;
          let vscrollbar_visible :=
            fgt child_min_height
              (fsub avail_height
                 (if hscrollbar_visible then sb_height else gfloat_of_int 0)) in
          ret (hscrollbar_visible, vscrollbar_visible)
      else
        let vscrollbar_visible :=
          policy_eqb (vscrollbar_policy priv) ST_POLICY_ALWAYS in
        if policy_eqb (hscrollbar_policy priv) ST_POLICY_AUTOMATIC then
          ret (fgt child_min_width
                 (fsub avail_height
                    (if vscrollbar_visible then gfloat_of_int 0 else sb_width)),
               vscrollbar_visible)
        else
          ret (policy_eqb (hscrollbar_policy priv) ST_POLICY_ALWAYS,
               vscrollbar_visible)
  | None =>
      ret (negb (policy_eqb (hscrollbar_policy priv) ST_POLICY_NEVER)
           && negb (policy_eqb (hscrollbar_policy priv) ST_POLICY_EXTERNAL),
           negb (policy_eqb (vscrollbar_policy priv) ST_POLICY_NEVER)
           && negb (policy_eqb (vscrollbar_policy priv) ST_POLICY_EXTERNAL))
  end.

(** Field updates of the private data. *)
Definition with_hscrollbar_visible (b : bool) (p : StScrollViewPrivate) :=
  mkPriv (child p) (hadjustment p) (hscroll p) (vadjustment p) (vscroll p)
    (hscrollbar_policy p) (vscrollbar_policy p) (row_size p) (column_size p)
    (row_size_set p) (column_size_set p) (mouse_scroll p) (overlay_scrollbars p)
    b (vscrollbar_visible p).

Definition with_vscrollbar_visible (b : bool) (p : StScrollViewPrivate) :=
  mkPriv (child p) (hadjustment p) (hscroll p) (vadjustment p) (vscroll p)
    (hscrollbar_policy p) (vscrollbar_policy p) (row_size p) (column_size p)
    (row_size_set p) (column_size_set p) (mouse_scroll p) (overlay_scrollbars p)
    (hscrollbar_visible p) b.

(** [priv->field = v] *)
Definition assign (upd : StScrollViewPrivate -> StScrollViewPrivate) : M unit :=
  fun priv => Returns tt (upd priv) [].

(** [st_scroll_view_allocate] *)
Definition st_scroll_view_allocate (box : ClutterActorBox) : M unit :=
  priv <- get_priv ;;
  emit (SetAllocation box) ;;
  let content_box := theme_content_box scene box in
  let avail_width := fsub (x2 content_box) (x1 content_box) in
  let avail_height := fsub (y2 content_box) (y1 content_box) in
  '(sb_width, sb_height) <-
    (match request_mode scene with
     | CLUTTER_REQUEST_HEIGHT_FOR_WIDTH =>
         sb_width <- get_scrollbar_width (gfloat_of_int (-1)) ;;
         sb_height <- get_scrollbar_height sb_width ;;
         ret (sb_width, sb_height)
     | _ =>
         sb_height <- get_scrollbar_height (gfloat_of_int (-1)) ;;
         sb_width <- get_scrollbar_width sb_height ;;
         ret (sb_width, sb_height)
     end) ;;
  (* Determine what scrollbars are visible. *)
  '(hscrollbar_visible', vscrollbar_visible') <-
    determine_visibility avail_width avail_height sb_width sb_height ;;
  (* Vertical scrollbar *)
  let child_box :=
    if is_rtl (text_direction scene) then
      mkBox (x1 content_box)
            (y1 content_box)
            (fadd (x1 content_box) sb_width)
            (fsub (y2 content_box)
               (if hscrollbar_visible' then sb_height else gfloat_of_int 0))
    else
      mkBox (fsub (x2 content_box) sb_width)
            (y1 content_box)
            (x2 content_box)
            (fsub (y2 content_box)
               (if hscrollbar_visible' then sb_height else gfloat_of_int 0)) in
  clutter_actor_allocate (vscroll priv) child_box ;;
  (* Horizontal scrollbar *)
  let child_box :=
    if is_rtl (text_direction scene) then
      mkBox (fadd (x1 content_box)
               (if vscrollbar_visible' then sb_width else gfloat_of_int 0))
            (fsub (y2 content_box) sb_height)
            (x2 content_box)
            (y2 content_box)
    else
      mkBox (x1 content_box)
            (fsub (y2 content_box) sb_height)
            (fsub (x2 content_box)
               (if vscrollbar_visible' then sb_width else gfloat_of_int 0))
            (y2 content_box) in
  clutter_actor_allocate (hscroll priv) child_box ;;
  (* With policy NEVER or EXTERNAL, or overlaid scrollbars, the content box
     allocation is not trimmed by the scrollbar size. *)
  let sb_height :=
    if policy_eqb (hscrollbar_policy priv) ST_POLICY_NEVER
       || policy_eqb (hscrollbar_policy priv) ST_POLICY_EXTERNAL
       || overlay_scrollbars priv
    then gfloat_of_int 0 else sb_height in
  let sb_width :=
    if policy_eqb (vscrollbar_policy priv) ST_POLICY_NEVER
       || policy_eqb (vscrollbar_policy priv) ST_POLICY_EXTERNAL
       || overlay_scrollbars priv
    then gfloat_of_int 0 else sb_width in
  (* Child *)
  let child_box :=
    if is_rtl (text_direction scene) then
      mkBox (fadd (x1 content_box) sb_width)
            (y1 content_box)
            (x2 content_box)
            (fsub (y2 content_box) sb_height)
    else
      mkBox (x1 content_box)
            (y1 content_box)
            (fsub (x2 content_box) sb_width)
            (fsub (y2 content_box) sb_height) in
  when (non_null (child priv))
    (clutter_actor_allocate (child priv) child_box) ;;
  when (negb (Bool.eqb (hscrollbar_visible priv) hscrollbar_visible'))
    (emit FreezeNotify ;;
     assign (with_hscrollbar_visible hscrollbar_visible') ;;
     g_object_notify_by_pspec PROP_HSCROLLBAR_VISIBLE ;;
     emit ThawNotify) ;;
  when (negb (Bool.eqb (vscrollbar_visible priv) vscrollbar_visible'))
    (emit FreezeNotify ;;
     assign (with_vscrollbar_visible vscrollbar_visible') ;;
     g_object_notify_by_pspec PROP_VSCROLLBAR_VISIBLE ;;
     emit ThawNotify).


(** ** Scroll events *)

Definition st_adjustment_adjust_for_scroll_event (adj : Axis) (delta : Q)
  : M unit :=
  emit (AdjustForScrollEvent adj delta).

(** [adjust_with_direction] *)
Definition adjust_with_direction (adj : Axis) (direction : ClutterScrollDirection)
  : M unit :=
  delta <-
    (match direction with
     | CLUTTER_SCROLL_UP | CLUTTER_SCROLL_LEFT => ret (-1)
     | CLUTTER_SCROLL_RIGHT | CLUTTER_SCROLL_DOWN => ret 1
     | CLUTTER_SCROLL_SMOOTH => g_assert_not_reached
     end) ;;
  st_adjustment_adjust_for_scroll_event adj delta.

(** [st_scroll_view_scroll_event]; the result is the handler's [gboolean]. *)
Definition st_scroll_view_scroll_event (event : ClutterEvent) : M bool :=
  priv <- get_priv ;;
  (* don't handle scroll events if requested not to *)
  if negb (mouse_scroll priv) then ret false
  else if pointer_emulated event then ret true
  else
    let direction := text_direction scene in
    (match scroll_direction event with
     | CLUTTER_SCROLL_SMOOTH =>
         let '(delta_x, delta_y) := scroll_delta event in
         let delta_x := if is_rtl direction then delta_x * -1 else delta_x in
         st_adjustment_adjust_for_scroll_event Horizontal delta_x ;;
         st_adjustment_adjust_for_scroll_event Vertical delta_y
     | CLUTTER_SCROLL_UP | CLUTTER_SCROLL_DOWN =>
         adjust_with_direction Vertical (scroll_direction event)
     | CLUTTER_SCROLL_LEFT | CLUTTER_SCROLL_RIGHT =>
         if is_rtl direction then
           let dir :=
             match scroll_direction event with
             | CLUTTER_SCROLL_LEFT => CLUTTER_SCROLL_RIGHT
             | _ => CLUTTER_SCROLL_LEFT
             end in
           adjust_with_direction Horizontal dir
         else adjust_with_direction Horizontal (scroll_direction event)
     end) ;;
    ret true.

(** ** The container interface *)

Definition with_child (c : option ActorId) (p : StScrollViewPrivate) :=
  mkPriv c (hadjustment p) (hscroll p) (vadjustment p) (vscroll p)
    (hscrollbar_policy p) (vscrollbar_policy p) (row_size p) (column_size p)
    (row_size_set p) (column_size_set p) (mouse_scroll p) (overlay_scrollbars p)
    (hscrollbar_visible p) (vscrollbar_visible p).

Definition with_hscroll (a : option ActorId) (p : StScrollViewPrivate) :=
  mkPriv (child p) (hadjustment p) a (vadjustment p) (vscroll p)
    (hscrollbar_policy p) (vscrollbar_policy p) (row_size p) (column_size p)
    (row_size_set p) (column_size_set p) (mouse_scroll p) (overlay_scrollbars p)
    (hscrollbar_visible p) (vscrollbar_visible p).

Definition with_vscroll (a : option ActorId) (p : StScrollViewPrivate) :=
  mkPriv (child p) (hadjustment p) (hscroll p) (vadjustment p) a
    (hscrollbar_policy p) (vscrollbar_policy p) (row_size p) (column_size p)
    (row_size_set p) (column_size_set p) (mouse_scroll p) (overlay_scrollbars p)
    (hscrollbar_visible p) (vscrollbar_visible p).

(** [actor == p] for a non-NULL [actor]. *)
Definition actor_eqb (actor : ActorId) (p : option ActorId) : bool :=
  match p with
  | Some a => Pos.eqb actor a
  | None => false
  end.

(** The value, as a condition, of a string literal: the address of its first
    character, which is never [NULL]. *)
Definition string_literal_truth : bool := true.

(** [st_scroll_view_add] *)
Definition st_scroll_view_add (actor : ActorId) : M unit :=
  if actor_is_scrollable scene actor then
    assign (with_child (Some actor)) ;;
    (* chain up to StBin::add() *)
    emit (ParentAdd actor) ;;
    emit (SetAdjustments actor true)
  else emit Warning.

(** [st_scroll_view_remove] *)
Definition st_scroll_view_remove (actor : ActorId) : M unit :=
  priv <- get_priv ;;
  if actor_eqb actor (child priv) then
    (* chain up to StBin::remove() *)
    emit (ParentRemove actor) ;;
    emit (SetAdjustments actor false) ;;
    assign (with_child None)
  else
    (if actor_eqb actor (vscroll priv) then assign (with_vscroll None)
     else if actor_eqb actor (hscroll priv) then assign (with_hscroll None)
     else g_assert string_literal_truth) ;;
    emit (RemoveChild actor).

End Widget.

(** ** Construction and the public setters and getters *)

(** [st_scroll_view_init]. The instance's private data starts zeroed. The two
    adjustments come from [g_object_new (ST_TYPE_ADJUSTMENT, ...)], with the
    defaults of their class ([st-adjustment.c], outside this file):
    [new_adjustment] stands for such a fresh adjustment, [hscroll] and
    [vscroll] for the two scrollbar actors created. *)
Definition st_scroll_view_init
  (new_adjustment : StAdjustment) (hscroll vscroll : ActorId)
  : StScrollViewPrivate :=
  {| child := None;
     hadjustment := new_adjustment;
     hscroll := Some hscroll;
     vadjustment := new_adjustment;
     vscroll := Some vscroll;
     hscrollbar_policy := ST_POLICY_AUTOMATIC;
     vscrollbar_policy := ST_POLICY_AUTOMATIC;
     row_size := 0;
     column_size := 0;
     row_size_set := false;
     column_size_set := false;
     mouse_scroll := true;
     overlay_scrollbars := false;
     hscrollbar_visible := false;
     vscrollbar_visible := false |}.

Definition with_column_size (set : bool) (size : Q) (p : StScrollViewPrivate) :=
  mkPriv (child p) (hadjustment p) (hscroll p) (vadjustment p) (vscroll p)
    (hscrollbar_policy p) (vscrollbar_policy p) (row_size p) size
    (row_size_set p) set (mouse_scroll p) (overlay_scrollbars p)
    (hscrollbar_visible p) (vscrollbar_visible p).

Definition with_row_size (set : bool) (size : Q) (p : StScrollViewPrivate) :=
  mkPriv (child p) (hadjustment p) (hscroll p) (vadjustment p) (vscroll p)
    (hscrollbar_policy p) (vscrollbar_policy p) size (column_size p)
    set (column_size_set p) (mouse_scroll p) (overlay_scrollbars p)
    (hscrollbar_visible p) (vscrollbar_visible p).

Definition with_hadjustment (a : StAdjustment) (p : StScrollViewPrivate) :=
  mkPriv (child p) a (hscroll p) (vadjustment p) (vscroll p)
    (hscrollbar_policy p) (vscrollbar_policy p) (row_size p) (column_size p)
    (row_size_set p) (column_size_set p) (mouse_scroll p) (overlay_scrollbars p)
    (hscrollbar_visible p) (vscrollbar_visible p).

Definition with_vadjustment (a : StAdjustment) (p : StScrollViewPrivate) :=
  mkPriv (child p) (hadjustment p) (hscroll p) a (vscroll p)
    (hscrollbar_policy p) (vscrollbar_policy p) (row_size p) (column_size p)
    (row_size_set p) (column_size_set p) (mouse_scroll p) (overlay_scrollbars p)
    (hscrollbar_visible p) (vscrollbar_visible p).

Definition with_hscrollbar_policy (v : StPolicyType) (p : StScrollViewPrivate) :=
  mkPriv (child p) (hadjustment p) (hscroll p) (vadjustment p) (vscroll p)
    v (vscrollbar_policy p) (row_size p) (column_size p)
    (row_size_set p) (column_size_set p) (mouse_scroll p) (overlay_scrollbars p)
    (hscrollbar_visible p) (vscrollbar_visible p).

Definition with_vscrollbar_policy (v : StPolicyType) (p : StScrollViewPrivate) :=
  mkPriv (child p) (hadjustment p) (hscroll p) (vadjustment p) (vscroll p)
    (hscrollbar_policy p) v (row_size p) (column_size p)
    (row_size_set p) (column_size_set p) (mouse_scroll p) (overlay_scrollbars p)
    (hscrollbar_visible p) (vscrollbar_visible p).

Definition with_mouse_scroll (b : bool) (p : StScrollViewPrivate) :=
  mkPriv (child p) (hadjustment p) (hscroll p) (vadjustment p) (vscroll p)
    (hscrollbar_policy p) (vscrollbar_policy p) (row_size p) (column_size p)
    (row_size_set p) (column_size_set p) b (overlay_scrollbars p)
    (hscrollbar_visible p) (vscrollbar_visible p).

Definition with_overlay_scrollbars (b : bool) (p : StScrollViewPrivate) :=
  mkPriv (child p) (hadjustment p) (hscroll p) (vadjustment p) (vscroll p)
    (hscrollbar_policy p) (vscrollbar_policy p) (row_size p) (column_size p)
    (row_size_set p) (column_size_set p) (mouse_scroll p) b
    (hscrollbar_visible p) (vscrollbar_visible p).

(** [st_scroll_view_get_column_size]: the [step-increment] of the horizontal
    adjustment. *)
Definition st_scroll_view_get_column_size : M Q :=
  priv <- get_priv ;;
  ret (step_increment (hadjustment priv)).

(** [st_scroll_view_set_column_size] *)
Definition st_scroll_view_set_column_size (column_size : Q) : M unit :=
  if column_size <? 0 then
    assign (with_column_size false (-1))
  else
    assign (with_column_size true column_size) ;;
    (* g_object_set (hadjustment, "step-increment", column_size, NULL) *)
    assign (with_hadjustment (mkAdjustment column_size)).

(** [st_scroll_view_get_row_size]: the [step-increment] of the vertical
    adjustment. *)
Definition st_scroll_view_get_row_size : M Q :=
  priv <- get_priv ;;
  ret (step_increment (vadjustment priv)).

(** [st_scroll_view_set_row_size] *)
Definition st_scroll_view_set_row_size (row_size : Q) : M unit :=
  if row_size <? 0 then
    assign (with_row_size false (-1))
  else
    assign (with_row_size true row_size) ;;
    (* g_object_set (vadjustment, "step-increment", row_size, NULL) *)
    assign (with_vadjustment (mkAdjustment row_size)).

(** [st_scroll_view_set_mouse_scrolling]. [enabled] is a [gboolean], that
    is a [gint], and [priv->mouse_scroll] a field one bit wide: the
    comparison reads the field as 0 or 1, the assignment keeps the lowest bit
    of [enabled], and [if (enabled)] asks whether [enabled] is not 0. *)
Definition st_scroll_view_set_mouse_scrolling (enabled : Z) : M unit :=
  priv <- get_priv ;;
  when (negb (Z.eqb (Z.b2z (mouse_scroll priv)) enabled))
    (assign (with_mouse_scroll (Z.odd enabled)) ;;
     (* make sure we can receive mouse wheel events *)
     when (negb (Z.eqb enabled 0)) (emit (SetReactive true)) ;;
     emit (NotifyByPspec PROP_MOUSE_SCROLL)).

(** [st_scroll_view_set_overlay_scrollbars], with the same [gboolean]
    argument and one-bit field. *)
Definition st_scroll_view_set_overlay_scrollbars (enabled : Z) : M unit :=
  priv <- get_priv ;;
  when (negb (Z.eqb (Z.b2z (overlay_scrollbars priv)) enabled))
    (assign (with_overlay_scrollbars (Z.odd enabled)) ;;
     emit (NotifyByPspec PROP_OVERLAY_SCROLLBARS) ;;
     emit QueueRelayout).

(** [st_scroll_view_set_policy] *)
Definition st_scroll_view_set_policy (hscroll vscroll : StPolicyType) : M unit :=
  priv <- get_priv ;;
  if policy_eqb (hscrollbar_policy priv) hscroll
     && policy_eqb (vscrollbar_policy priv) vscroll
  then ret tt
  else
    emit FreezeNotify ;;
    when (negb (policy_eqb (hscrollbar_policy priv) hscroll))
      (assign (with_hscrollbar_policy hscroll) ;;
       emit (NotifyByPspec PROP_HSCROLLBAR_POLICY)) ;;
    when (negb (policy_eqb (vscrollbar_policy priv) vscroll))
      (assign (with_vscrollbar_policy vscroll) ;;
       emit (NotifyByPspec PROP_VSCROLLBAR_POLICY)) ;;
    emit QueueRelayout ;;
    emit ThawNotify.

(** The [hscrollbar-policy] and [vscrollbar-policy] properties, as
    [st_scroll_view_get_property] reads them. *)
Definition get_policy : M (StPolicyType * StPolicyType) :=
  priv <- get_priv ;;
  ret (hscrollbar_policy priv, vscrollbar_policy priv).

(** ** Projections of a log *)

(** The properties notified, in order. *)
Fixpoint notifications (l : list Effect) : list Property :=
  match l with
  | [] => []
  | NotifyByPspec p :: l => p :: notifications l
  | _ :: l => notifications l
  end.

(** The boxes allocated, each with the actor it goes to, in order. *)
Fixpoint allocations (l : list Effect) : list (option ActorId * ClutterActorBox) :=
  match l with
  | [] => []
  | Allocate a box :: l => (a, box) :: allocations l
  | _ :: l => allocations l
  end.

(** The widths at which a log asks actor [a] for its preferred height. *)
Fixpoint height_queries (a : ActorId) (l : list Effect) : list gfloat :=
  match l with
  | [] => []
  | GetPreferredHeight a' w :: l =>
      if Pos.eqb a a' then w :: height_queries a l else height_queries a l
  | _ :: l => height_queries a l
  end.

(** ** A concrete view, for examples *)

Module Example.

Definition child_actor : ActorId := 1%positive.
Definition hscroll_actor : ActorId := 2%positive.
Definition vscroll_actor : ActorId := 3%positive.
Definition stray_actor : ActorId := 9%positive.

(** A view as [st_scroll_view_init] leaves it; fresh adjustments have a step
    increment of 0. *)
Definition fresh_view : StScrollViewPrivate :=
  st_scroll_view_init (mkAdjustment 0) hscroll_actor vscroll_actor.

(** The view with a child and the given policies. *)
Definition view_with_policy (h v : StPolicyType) : StScrollViewPrivate :=
  with_vscrollbar_policy v
    (with_hscrollbar_policy h (with_child (Some child_actor) fresh_view)).

(** A scene with no theme insets, in height-for-width mode, where every
    actor is scrollable. *)
Definition scene_of
  (visible : ActorId -> bool)
  (preferred_width preferred_height : ActorId -> gfloat -> gfloat * gfloat)
  (direction : ClutterTextDirection) : Scene :=
  {| actor_is_visible := visible;
     actor_preferred_width := preferred_width;
     actor_preferred_height := preferred_height;
     actor_is_scrollable := fun _ => true;
     text_direction := direction;
     request_mode := CLUTTER_REQUEST_HEIGHT_FOR_WIDTH;
     theme_content_box := fun box => box;
     theme_adjust_for_height := fun h => h;
     theme_adjust_for_width := fun w => w;
     theme_adjust_preferred_width := fun m n => (m, n);
     theme_adjust_preferred_height := fun m n => (m, n) |}.

(** Scrollbars 16 thick and shown, a child that asks for nothing. *)
Definition plain_scene (direction : ClutterTextDirection) : Scene :=
  scene_of (fun _ => true)
    (fun a _ => if Pos.eqb a child_actor then (px 0, px 0) else (px 16, px 16))
    (fun a _ => if Pos.eqb a child_actor then (px 0, px 0) else (px 16, px 16))
    direction.

(** The fresh view with a child added. *)
Definition view_with_child : StScrollViewPrivate :=
  with_child (Some child_actor) fresh_view.

(** A child of minimum width 100 and natural width 200; scrollbars 16 thick,
    the vertical one hidden. *)
Definition hidden_vscroll_scene : Scene :=
  scene_of (fun a => negb (Pos.eqb a vscroll_actor))
    (fun a _ =>
       if Pos.eqb a child_actor then (px 100, px 200) else (px 16, px 16))
    (fun a _ => if Pos.eqb a child_actor then (px 0, px 0) else (px 16, px 16))
    CLUTTER_TEXT_DIRECTION_LTR.

(** Scrollbars 16 thick and shown; a child of minimum width
    [child_min_width] whose minimum height at width [w] is
    [child_height_at w]. *)
Definition child_scene
  (child_min_width : gfloat) (child_height_at : gfloat -> gfloat) : Scene :=
  scene_of (fun _ => true)
    (fun a _ =>
       if Pos.eqb a child_actor
       then (child_min_width, child_min_width) else (px 16, px 16))
    (fun a w =>
       if Pos.eqb a child_actor
       then (child_height_at w, child_height_at w) else (px 16, px 16))
    CLUTTER_TEXT_DIRECTION_LTR.

(** The description's test scenario for the two-pass probe: minimum width
    290, minimum height 250 at width 300 and 150 below. *)
Definition scenario_scene : Scene :=
  child_scene (px 290) (fun w => if fgt (px 300) w then px 150 else px 250).

(** A child that needs no width and is 250 high at any width. *)
Definition tall_scene : Scene := child_scene (px 0) (fun _ => px 250).

(** A child of minimum width 190 that needs no height. *)
Definition wide_scene : Scene := child_scene (px 190) (fun _ => px 0).

(** The float nearest to [z] tenths, what C writes [0.3f] for 3 tenths. *)
Definition tenths (z : Z) : gfloat := SFdiv 24 128 (px z) (px 10).

(** Scrollbars 0.3 thick and shown; a child 299.7 wide and 250 high. *)
Definition thin_bars_scene : Scene :=
  scene_of (fun _ => true)
    (fun a _ =>
       if Pos.eqb a child_actor
       then (tenths 2997, tenths 2997) else (tenths 3, tenths 3))
    (fun a _ =>
       if Pos.eqb a child_actor then (px 250, px 250) else (tenths 3, tenths 3))
    CLUTTER_TEXT_DIRECTION_LTR.

End Example.

(** ** The design description's reading of the scroll-event router *)

(** The deltas a scroll event is to forward, by the description's words:
    a smooth event forwards [dx] (negated under right-to-left) to the
    horizontal adjustment and [dy] to the vertical one; up and down forward
    -1 and +1 to the vertical adjustment; left forwards -1 (+1 under
    right-to-left) and right +1 (-1 under right-to-left) to the horizontal
    one. *)
Definition routed_deltas (direction : ClutterTextDirection) (event : ClutterEvent)
  : list Effect :=
  let rtl := is_rtl direction in
  match scroll_direction event with
  | CLUTTER_SCROLL_SMOOTH =>
      [AdjustForScrollEvent Horizontal
         (if rtl then - fst (scroll_delta event) else fst (scroll_delta event));
       AdjustForScrollEvent Vertical (snd (scroll_delta event))]
  | CLUTTER_SCROLL_UP => [AdjustForScrollEvent Vertical (-1)]
  | CLUTTER_SCROLL_DOWN => [AdjustForScrollEvent Vertical 1]
  | CLUTTER_SCROLL_LEFT =>
      [AdjustForScrollEvent Horizontal (if rtl then 1 else -1)]
  | CLUTTER_SCROLL_RIGHT =>
      [AdjustForScrollEvent Horizontal (if rtl then -1 else 1)]
  end.

(** ** The design description's reading of the layout resolver *)

(** Space is reserved for a scrollbar when its policy is ALWAYS or AUTOMATIC
    and scrollbars are not overlaid. *)
Definition reserves_space (policy : StPolicyType) (overlay : bool) : bool :=
  match policy with
  | ST_POLICY_ALWAYS | ST_POLICY_AUTOMATIC => negb overlay
  | ST_POLICY_NEVER | ST_POLICY_EXTERNAL => false
  end.

(** The thickness allowance for a scrollbar actor: its minimum preferred
    size across its axis if the actor is there and currently visible,
    0 otherwise. *)
Definition scrollbar_width
  (scene : Scene) (vs : option ActorId) (for_height : gfloat) : gfloat :=
  match vs with
  | Some a =>
      if actor_is_visible scene a
      then fst (actor_preferred_width scene a for_height) else gfloat_of_int 0
  | None => gfloat_of_int 0
  end.

Definition scrollbar_height
  (scene : Scene) (hs : option ActorId) (for_width : gfloat) : gfloat :=
  match hs with
  | Some a =>
      if actor_is_visible scene a
      then fst (actor_preferred_height scene a for_width) else gfloat_of_int 0
  | None => gfloat_of_int 0
  end.

(** The size queries the two allowances cost. *)
Definition scrollbar_width_log (scene : Scene) (vs : option ActorId)
  (for_height : gfloat) : list Effect :=
  match vs with
  | Some a =>
      if actor_is_visible scene a then [GetPreferredWidth a for_height] else []
  | None => []
  end.

Definition scrollbar_height_log (scene : Scene) (hs : option ActorId)
  (for_width : gfloat) : list Effect :=
  match hs with
  | Some a =>
      if actor_is_visible scene a then [GetPreferredHeight a for_width] else []
  | None => []
  end.

(** Minimum and natural width before the theme's adjustment, by the
    description's words: the child's minimum width under the NEVER horizontal
    policy and 0 otherwise; the child's natural width; and [allowance] added
    to both (a [float] addition each) when space is reserved for the vertical
    scrollbar. *)
Definition described_preferred_width
  (scene : Scene) (priv : StScrollViewPrivate) (ch : ActorId) (allowance : gfloat)
  : gfloat * gfloat :=
  let '(child_min, child_natural) :=
    actor_preferred_width scene ch (gfloat_of_int (-1)) in
  let min :=
    if policy_eqb (hscrollbar_policy priv) ST_POLICY_NEVER
    then child_min else gfloat_of_int 0 in
  if reserves_space (vscrollbar_policy priv) (overlay_scrollbars priv)
  then (fadd min allowance, fadd child_natural allowance)
  else (min, child_natural).

(** The scrollbar thickness pair [(sb_width, sb_height)]: one scrollbar is
    asked unconstrained, the other constrained by the first's answer, in the
    order the view's request mode gives. *)
Definition scrollbar_thickness (scene : Scene) (priv : StScrollViewPrivate)
  : gfloat * gfloat :=
  match request_mode scene with
  | CLUTTER_REQUEST_HEIGHT_FOR_WIDTH =>
      let w := scrollbar_width scene (vscroll priv) (gfloat_of_int (-1)) in
      (w, scrollbar_height scene (hscroll priv) w)
  | _ =>
      let h := scrollbar_height scene (hscroll priv) (gfloat_of_int (-1)) in
      (scrollbar_width scene (vscroll priv) h, h)
  end.

Definition scrollbar_thickness_log (scene : Scene) (priv : StScrollViewPrivate)
  : list Effect :=
  match request_mode scene with
  | CLUTTER_REQUEST_HEIGHT_FOR_WIDTH =>
      let w := scrollbar_width scene (vscroll priv) (gfloat_of_int (-1)) in
      scrollbar_width_log scene (vscroll priv) (gfloat_of_int (-1))
      ++ scrollbar_height_log scene (hscroll priv) w
  | _ =>
      let h := scrollbar_height scene (hscroll priv) (gfloat_of_int (-1)) in
      scrollbar_height_log scene (hscroll priv) (gfloat_of_int (-1))
      ++ scrollbar_width_log scene (vscroll priv) h
  end.

(** Available width and height: the extent of the content box, each a
    [float] subtraction. *)
Definition avail_width (scene : Scene) (box : ClutterActorBox) : gfloat :=
  fsub (x2 (theme_content_box scene box)) (x1 (theme_content_box scene box)).

Definition avail_height (scene : Scene) (box : ClutterActorBox) : gfloat :=
  fsub (y2 (theme_content_box scene box)) (y1 (theme_content_box scene box)).

(** The vertical scrollbar's box: flush against the trailing edge of the
    content box (the leading edge under right-to-left), the full content
    height less the horizontal scrollbar's thickness if that one is visible. *)
Definition described_vscroll_box
  (scene : Scene) (cb : ClutterActorBox) (sb_width sb_height : gfloat)
  (hvisible : bool) : ClutterActorBox :=
  let bottom := fsub (y2 cb) (if hvisible then sb_height else gfloat_of_int 0) in
  if is_rtl (text_direction scene)
  then mkBox (x1 cb) (y1 cb) (fadd (x1 cb) sb_width) bottom
  else mkBox (fsub (x2 cb) sb_width) (y1 cb) (x2 cb) bottom.

(** The horizontal scrollbar's box: along the bottom edge, clear of the
    vertical scrollbar if that one is visible. *)
Definition described_hscroll_box
  (scene : Scene) (cb : ClutterActorBox) (sb_width sb_height : gfloat)
  (vvisible : bool) : ClutterActorBox :=
  let inset := if vvisible then sb_width else gfloat_of_int 0 in
  if is_rtl (text_direction scene)
  then mkBox (fadd (x1 cb) inset) (fsub (y2 cb) sb_height) (x2 cb) (y2 cb)
  else mkBox (x1 cb) (fsub (y2 cb) sb_height) (fsub (x2 cb) inset) (y2 cb).

(** The child's box: the content box less the reserved thicknesses, which
    count as 0 under the NEVER and EXTERNAL policies and with overlaid
    scrollbars. *)
Definition described_child_box
  (scene : Scene) (priv : StScrollViewPrivate) (cb : ClutterActorBox)
  (sb_width sb_height : gfloat) : ClutterActorBox :=
  let reserved_height :=
    if reserves_space (hscrollbar_policy priv) (overlay_scrollbars priv)
    then sb_height else gfloat_of_int 0 in
  let reserved_width :=
    if reserves_space (vscrollbar_policy priv) (overlay_scrollbars priv)
    then sb_width else gfloat_of_int 0 in
  if is_rtl (text_direction scene)
  then mkBox (fadd (x1 cb) reserved_width) (y1 cb) (x2 cb)
         (fsub (y2 cb) reserved_height)
  else mkBox (x1 cb) (y1 cb) (fsub (x2 cb) reserved_width)
         (fsub (y2 cb) reserved_height).

(** The allocations of one [allocate] call, in order: both scrollbars
    always, the child if there is one. *)
Definition described_allocations
  (scene : Scene) (priv : StScrollViewPrivate) (box : ClutterActorBox)
  (hvisible vvisible : bool) : list Effect :=
  let cb := theme_content_box scene box in
  let '(sb_width, sb_height) := scrollbar_thickness scene priv in
  Allocate (vscroll priv) (described_vscroll_box scene cb sb_width sb_height hvisible)
  :: Allocate (hscroll priv) (described_hscroll_box scene cb sb_width sb_height vvisible)
  :: match child priv with
     | Some ch =>
         [Allocate (Some ch) (described_child_box scene priv cb sb_width sb_height)]
     | None => []
     end.

(** The notification of one visibility property: none if the flag keeps its
    value, one (inside a freeze and thaw pair) if it changes. *)
Definition notify_log (old new : bool) (p : Property) : list Effect :=
  if Bool.eqb old new then [] else [FreezeNotify; NotifyByPspec p; ThawNotify].

Definition with_flags (hvisible vvisible : bool) (p : StScrollViewPrivate)
  : StScrollViewPrivate :=
  with_vscrollbar_visible vvisible (with_hscrollbar_visible hvisible p).

(** What the two-pass probe yields: the horizontal flag as pass one leaves
    it, the two final flags, and the widths at which the child's height was
    measured. *)
Record TwoPass : Set := mkTwoPass {
  pass_one_hvisible : bool;
  two_pass_hvisible : bool;
  two_pass_vvisible : bool;
  measured_widths : list gfloat
}.

(** The two-pass probe for two AUTOMATIC policies, by the description's
    words. [child_height_at w] is the child's minimum height when measured
    at width [w]. Pass one measures at the full available width, sets a
    provisional vertical flag, derives the horizontal flag from it and then
    the vertical flag from the horizontal one; if the vertical flag came out
    true, pass two measures again at the available width less the vertical
    scrollbar's width and redoes the horizontal check against that width.
    Every difference is a [float] subtraction. *)
Definition described_two_pass
  (child_height_at : gfloat -> gfloat) (child_min_width aw ah sbw sbh : gfloat)
  : TwoPass :=
  let height_full := child_height_at aw in
  let v_provisional := fgt height_full ah in
  let h_one :=
    fgt child_min_width
      (fsub aw (if v_provisional then sbw else gfloat_of_int 0)) in
  let v :=
    fgt height_full (fsub ah (if h_one then sbh else gfloat_of_int 0)) in
  {| pass_one_hvisible := h_one;
     two_pass_hvisible := if v then fgt child_min_width (fsub aw sbw) else h_one;
     two_pass_vvisible := v;
     measured_widths := if v then [aw; fsub aw sbw] else [aw] |}.

(** The widths at which the code measures the child's height: the full
    available width, and then, if the vertical scrollbar came out visible,
    the width left beside it, but never less than 0. *)
Definition probe_widths (aw sbw : gfloat) (vvisible : bool) : list gfloat :=
  aw :: (if vvisible then [MAX (fsub aw sbw) (gfloat_of_int 0)] else []).

(** The horizontal flag when only the horizontal policy is AUTOMATIC, by the
    description's words: the child's minimum width against the available
    height less the vertical scrollbar's allowance, which is taken off when
    the vertical scrollbar is visible. *)
Definition described_fixed_vertical_hvisible
  (child_min_width ah sbw : gfloat) (vvisible : bool) : bool :=
  fgt child_min_width (fsub ah (if vvisible then sbw else gfloat_of_int 0)).

(** ** The remaining methods of the widget *)

(** [st_scroll_view_get_hscroll_bar] and [st_scroll_view_get_vscroll_bar] *)
Definition st_scroll_view_get_hscroll_bar : M (option ActorId) :=
  priv <- get_priv ;;
  ret (hscroll priv).

Definition st_scroll_view_get_vscroll_bar : M (option ActorId) :=
  priv <- get_priv ;;
  ret (vscroll priv).

(** [st_scroll_view_get_mouse_scrolling] *)
Definition st_scroll_view_get_mouse_scrolling : M bool :=
  priv <- get_priv ;;
  ret (mouse_scroll priv).

(** [st_scroll_view_get_overlay_scrollbars] *)
Definition st_scroll_view_get_overlay_scrollbars : M bool :=
  priv <- get_priv ;;
  ret (overlay_scrollbars priv).

(** *** Painting and picking *)

(** What [paint] and [pick] do to the scene, one constructor per call. *)
Inductive DrawCall : Set :=
| PaintBackground
| PaintActor (a : option ActorId)
| PickParent
| PickActor (a : option ActorId).

(** [st_scroll_view_paint] *)
Definition st_scroll_view_paint (priv : StScrollViewPrivate) : list DrawCall :=
  [PaintBackground]
  ++ (if non_null (child priv) then [PaintActor (child priv)] else [])
  ++ (if hscrollbar_visible priv then [PaintActor (hscroll priv)] else [])
  ++ (if vscrollbar_visible priv then [PaintActor (vscroll priv)] else []).

(** [st_scroll_view_pick] *)
Definition st_scroll_view_pick (priv : StScrollViewPrivate) : list DrawCall :=
  (* Chain up so we get a bounding box painted (if we are reactive) *)
  [PickParent]
  ++ (if non_null (child priv) then [PickActor (child priv)] else [])
  ++ (if hscrollbar_visible priv then [PickActor (hscroll priv)] else [])
  ++ (if vscrollbar_visible priv then [PickActor (vscroll priv)] else []).

(** *** The GObject properties *)

(** The property identifiers of the class: the two read-only scrollbar
    properties and the six that are notified. *)
Inductive PropertyId : Set :=
| PROP_HSCROLL
| PROP_VSCROLL
| PROP_NOTIFIED (p : Property).

(** The type of the [GValue] a property holds: an object for the two
    scrollbars, an enumeration value for the policies, a boolean for the
    rest. *)
Definition property_type (id : PropertyId) : Set :=
  match id with
  | PROP_HSCROLL | PROP_VSCROLL => option ActorId
  | PROP_NOTIFIED PROP_HSCROLLBAR_POLICY
  | PROP_NOTIFIED PROP_VSCROLLBAR_POLICY => StPolicyType
  | PROP_NOTIFIED _ => bool
  end.

(** [st_scroll_view_get_property]: the value stored into [value]. *)
Definition st_scroll_view_get_property (property_id : PropertyId)
  : M (property_type property_id) :=
  priv <- get_priv ;;
  match property_id return M (property_type property_id) with
  | PROP_HSCROLL => ret (hscroll priv)
  | PROP_VSCROLL => ret (vscroll priv)
  | PROP_NOTIFIED PROP_HSCROLLBAR_POLICY => ret (hscrollbar_policy priv)
  | PROP_NOTIFIED PROP_VSCROLLBAR_POLICY => ret (vscrollbar_policy priv)
  | PROP_NOTIFIED PROP_HSCROLLBAR_VISIBLE => ret (hscrollbar_visible priv)
  | PROP_NOTIFIED PROP_VSCROLLBAR_VISIBLE => ret (vscrollbar_visible priv)
  | PROP_NOTIFIED PROP_MOUSE_SCROLL => ret (mouse_scroll priv)
  | PROP_NOTIFIED PROP_OVERLAY_SCROLLBARS => ret (overlay_scrollbars priv)
  end.

(** [st_scroll_view_set_property]; the [default:] arm warns about an
    invalid property id. [g_value_get_boolean] hands out the boolean a
    [GValue] holds as 0 or 1. *)
Definition st_scroll_view_set_property (property_id : PropertyId)
  : property_type property_id -> M unit :=
  match property_id return property_type property_id -> M unit with
  | PROP_NOTIFIED PROP_MOUSE_SCROLL =>
      fun value => st_scroll_view_set_mouse_scrolling (Z.b2z value)
  | PROP_NOTIFIED PROP_OVERLAY_SCROLLBARS =>
      fun value => st_scroll_view_set_overlay_scrollbars (Z.b2z value)
  | PROP_NOTIFIED PROP_HSCROLLBAR_POLICY =>
      fun value =>
        priv <- get_priv ;;
        st_scroll_view_set_policy value (vscrollbar_policy priv)
  | PROP_NOTIFIED PROP_VSCROLLBAR_POLICY =>
      fun value =>
        priv <- get_priv ;;
        st_scroll_view_set_policy (hscrollbar_policy priv) value
  | _ => fun _ => emit Warning
  end.

(** *** The fade effect *)

(** [ClutterMargin]: four [float]s, which this file only compares with 0 and
    copies. *)
Record ClutterMargin : Set := mkMargin {
  margin_left : Q;
  margin_right : Q;
  margin_top : Q;
  margin_bottom : Q
}.

(** [priv->fade_effect]: [None] is [NULL], [Some m] the attached effect
    with [m] as its [fade-margins]. No function above reads this field, so
    it is threaded on its own. *)
Definition FadeEffect : Set := option ClutterMargin.

Inductive FadeCall : Set :=
| AddEffectWithName
| SetFadeMargins (m : ClutterMargin)
| RemoveEffect
| ParentStyleChanged.

(** [x != 0.] *)
Definition Qnonzero (x : Q) : bool := negb (Qeq_bool x 0).

(** [st_scroll_view_update_fade_effect]: the new [priv->fade_effect] and the
    calls made. *)
Definition st_scroll_view_update_fade_effect
  (fade_effect : FadeEffect) (fade_margins : ClutterMargin)
  : FadeEffect * list FadeCall :=
  (* A fade amount of other than 0 enables the effect. *)
  if Qnonzero (margin_left fade_margins) || Qnonzero (margin_right fade_margins)
     || Qnonzero (margin_top fade_margins) || Qnonzero (margin_bottom fade_margins)
  then
    (Some fade_margins,
     (match fade_effect with
      | None => [AddEffectWithName]
      | Some _ => []
      end) ++ [SetFadeMargins fade_margins])
  else
    match fade_effect with
    | Some _ => (None, [RemoveEffect])
    | None => (None, [])
    end.

(** [st_scroll_view_style_changed]. [vfade] and [hfade] are the theme's
    answers to [st_theme_node_lookup_length] for [-st-vfade-offset] and
    [-st-hfade-offset]: [None] when the length is not found, which leaves the
    offset at its initial 0. The offsets are [double]s and the fields of the
    margin [float]s: [to_float] is the conversion each offset goes through
    when the margin is built. *)
Definition st_scroll_view_style_changed
  (to_float : Q -> Q) (vfade hfade : option Q) (fade_effect : FadeEffect)
  : FadeEffect * list FadeCall :=
  let has_vfade := match vfade with Some _ => true | None => false end in
  let has_hfade := match hfade with Some _ => true | None => false end in
  let vfade_offset := match vfade with Some v => v | None => 0 end in
  let hfade_offset := match hfade with Some h => h | None => 0 end in
  let '(fade_effect, calls) :=
    if has_vfade || has_hfade then
      st_scroll_view_update_fade_effect fade_effect
        {| margin_top := to_float vfade_offset;
           margin_bottom := to_float vfade_offset;
           margin_left := to_float hfade_offset;
           margin_right := to_float hfade_offset |}
    else (fade_effect, []) in
  (fade_effect, calls ++ [ParentStyleChanged]).

(** ** More projections of a log, and a relation on boxes *)

Definition is_size_query (e : Effect) : bool :=
  match e with
  | GetPreferredWidth _ _ | GetPreferredHeight _ _ => true
  | _ => false
  end.

(** The size queries of a log, in order. *)
Definition size_queries (l : list Effect) : list Effect := filter is_size_query l.

(** How many relayouts a log requests. *)
Fixpoint relayouts (l : list Effect) : nat :=
  match l with
  | [] => 0%nat
  | QueueRelayout :: l => S (relayouts l)
  | _ :: l => relayouts l
  end.

(** The deltas a log forwards to the adjustments, in order. *)
Fixpoint scroll_deltas (l : list Effect) : list (Axis * Q) :=
  match l with
  | [] => []
  | AdjustForScrollEvent adj delta :: l => (adj, delta) :: scroll_deltas l
  | _ :: l => scroll_deltas l
  end.

(** Two boxes with the same top and bottom edge. *)
Definition same_rows (a b : ClutterActorBox) : Prop :=
  y1 a = y1 b /\ y2 a = y2 b.

(** The scene with another text direction. *)
Definition with_text_direction (d : ClutterTextDirection) (scene : Scene) : Scene :=
  mkScene (actor_is_visible scene) (actor_preferred_width scene)
    (actor_preferred_height scene) (actor_is_scrollable scene) d
    (request_mode scene) (theme_content_box scene)
    (theme_adjust_for_height scene) (theme_adjust_for_width scene)
    (theme_adjust_preferred_width scene) (theme_adjust_preferred_height scene).

(** The scene with another answer to [ST_IS_SCROLLABLE]. *)
Definition with_scrollable (scrollable : ActorId -> bool) (scene : Scene) : Scene :=
  mkScene (actor_is_visible scene) (actor_preferred_width scene)
    (actor_preferred_height scene) scrollable (text_direction scene)
    (request_mode scene) (theme_content_box scene)
    (theme_adjust_for_height scene) (theme_adjust_for_width scene)
    (theme_adjust_preferred_width scene) (theme_adjust_preferred_height scene).

(** * Properties *)

(** ** Comparisons and enumerations *)

Lemma Qltb_spec (a b : Q) : reflect (a < b) (a <? b).
Proof.
  unfold Qltb. destruct (Qle_bool b a) eqn:E; constructor.
  - apply Qle_bool_iff in E. lra.
  - apply Qnot_le_lt. rewrite <- Qle_bool_iff. congruence.
Qed.

(** Subtracting the constant 0 gives back the float itself, whatever it is:
    a number, an infinity, a zero of either sign or NaN. *)
Lemma fsub_zero (x : gfloat) : fsub x (gfloat_of_int 0) = x.
Proof. destruct x as [[]|[]| |[] m e]; reflexivity. Qed.

(** Adding the constant 0 gives back the same value; the one float it
    changes is -0, which becomes +0. *)
Lemma fadd_zero (x : gfloat) : same_value (fadd x (gfloat_of_int 0)) x.
Proof.
  destruct x as [[]|[]| |[] m e]; try (left; reflexivity).
  right. reflexivity.
Qed.

Lemma same_value_refl (x : gfloat) : same_value x x.
Proof. now left. Qed.

(** Other differences and sums are rounded: 300 - 0.3 is the float nearest
    to 299.7, which is above the exact difference; that float plus 0.3 is
    300; and 16777220 - 1 is 16777220, there being no float in between. *)
Example float_arithmetic_rounds :
  fsub (px 300) (Example.tenths 3) = Example.tenths 2997
  /\ fadd (Example.tenths 2997) (Example.tenths 3) = px 300
  /\ fsub (px 16777220) (px 1) = px 16777220.
Proof. repeat split. Qed.

Lemma policy_eqb_refl (p : StPolicyType) : policy_eqb p p = true.
Proof. now destruct p. Qed.

Lemma actor_eqb_spec (actor : ActorId) (p : option ActorId) :
  reflect (p = Some actor) (actor_eqb actor p).
Proof.
  destruct p as [a|]; simpl.
  - destruct (Pos.eqb_spec actor a); constructor; congruence.
  - constructor. discriminate.
Qed.

Lemma Qmult_minus_one (q : Q) : q * -1 = - q.
Proof.
  destruct q as [n d]. unfold Qmult, Qopp. simpl. f_equal; lia.
Qed.

(** ** The policy setter *)

(** C9. For every pair of policies [(h, v)], [st_scroll_view_set_policy h v]
    returns with the stored horizontal and vertical policies equal to [h] and
    [v] (reading them back gives exactly [(h, v)]); and called with the pair
    that is already stored it changes nothing and has no effect at all: no
    notification, no relayout request. *)
Theorem set_policy_stores_pair_and_same_pair_is_noop :
  forall (priv : StScrollViewPrivate) (h v : StPolicyType),
    (exists priv' log,
        st_scroll_view_set_policy h v priv = Returns tt priv' log
        /\ hscrollbar_policy priv' = h
        /\ vscrollbar_policy priv' = v
        /\ get_policy priv' = Returns (h, v) priv' [])
    /\ st_scroll_view_set_policy
         (hscrollbar_policy priv) (vscrollbar_policy priv) priv
       = Returns tt priv [].
Proof.
  intros priv h v. split.
  - unfold st_scroll_view_set_policy, get_policy.
    destruct priv as [c ha hs va vs hp vp rs cs rss css ms ov hv vv].
    destruct hp, h, vp, v; cbv; do 2 eexists; repeat split.
  - unfold st_scroll_view_set_policy, bind, get_priv.
    rewrite !policy_eqb_refl. reflexivity.
Qed.

(** ** Step sizes *)

Lemma set_column_size_negative (priv : StScrollViewPrivate) (column_size : Q) :
  column_size < 0 ->
  st_scroll_view_set_column_size column_size priv
  = Returns tt (with_column_size false (-1) priv) [].
Proof.
  intro H. unfold st_scroll_view_set_column_size.
  destruct (Qltb_spec column_size 0); [reflexivity | contradiction].
Qed.

Lemma set_row_size_negative (priv : StScrollViewPrivate) (row_size : Q) :
  row_size < 0 ->
  st_scroll_view_set_row_size row_size priv
  = Returns tt (with_row_size false (-1) priv) [].
Proof.
  intro H. unfold st_scroll_view_set_row_size.
  destruct (Qltb_spec row_size 0); [reflexivity | contradiction].
Qed.

(** C5, as the code has it. For every negative input,
    [st_scroll_view_set_column_size] (resp. [st_scroll_view_set_row_size])
    marks the override unset and stores -1 as the size, and touches nothing
    else: the adjustment keeps its step increment, so the getter returns
    afterwards what it returned before. *)
Theorem set_size_negative_keeps_step_increment :
  forall (priv : StScrollViewPrivate) (size : Q),
    size < 0 ->
    (exists priv',
        st_scroll_view_set_column_size size priv = Returns tt priv' []
        /\ column_size_set priv' = false
        /\ column_size priv' = -1
        /\ hadjustment priv' = hadjustment priv
        /\ st_scroll_view_get_column_size priv'
           = Returns (step_increment (hadjustment priv)) priv' [])
    /\ (exists priv',
        st_scroll_view_set_row_size size priv = Returns tt priv' []
        /\ row_size_set priv' = false
        /\ row_size priv' = -1
        /\ vadjustment priv' = vadjustment priv
        /\ st_scroll_view_get_row_size priv'
           = Returns (step_increment (vadjustment priv)) priv' []).
Proof.
  intros priv size H. split.
  - exists (with_column_size false (-1) priv).
    rewrite (set_column_size_negative priv H). repeat split.
  - exists (with_row_size false (-1) priv).
    rewrite (set_row_size_negative priv H). repeat split.
Qed.

Lemma set_size_negative_keeps_step_increment_witness :
  -1 < 0
  /\ exists priv',
      st_scroll_view_set_column_size (-1)
        Example.fresh_view = Returns tt priv' []
      /\ column_size_set priv' = false.
Proof.
  split; [reflexivity|].
  destruct (set_size_negative_keeps_step_increment
              Example.fresh_view (size := -1))
    as [[priv' (Hrun & Hset & _)] _]; [reflexivity|].
  exists priv'. split; assumption.
Defined.

(** C5 as stated fails. On a fresh view whose adjustments have the default
    step increment 0, setting the column size to 5 and then to -1 marks the
    override unset, yet the getter still returns 5, not the default. The
    row size behaves the same. *)
Lemma set_size_negative_does_not_revert :
  (exists priv',
      (st_scroll_view_set_column_size 5 ;;
       st_scroll_view_set_column_size (-1) ;;
       st_scroll_view_get_column_size)
        Example.fresh_view
      = Returns 5 priv' []
      /\ column_size_set priv' = false
      /\ ~ 5 == step_increment (mkAdjustment 0))
  /\ (exists priv',
      (st_scroll_view_set_row_size 5 ;;
       st_scroll_view_set_row_size (-1) ;;
       st_scroll_view_get_row_size)
        Example.fresh_view
      = Returns 5 priv' []
      /\ row_size_set priv' = false
      /\ ~ 5 == step_increment (mkAdjustment 0)).
Proof.
  split; eexists; (split; [vm_compute; reflexivity | split; [reflexivity | easy]]).
Qed.

(** ** Scroll events *)

(** C8, as the code has it. With mouse scrolling enabled, every scroll event
    that does not carry the pointer-emulated flag is handled and forwards
    exactly the deltas of [routed_deltas]: a smooth [(dx, dy)] sends [dx] to
    the horizontal and [dy] to the vertical adjustment under left-to-right,
    [-dx] and [dy] under right-to-left; up sends -1 and down +1 to the
    vertical adjustment; left sends -1 under left-to-right and +1 under
    right-to-left to the horizontal adjustment, right the opposite. *)
Theorem scroll_event_routes_deltas :
  forall (scene : Scene) (priv : StScrollViewPrivate) (event : ClutterEvent),
    mouse_scroll priv = true ->
    pointer_emulated event = false ->
    st_scroll_view_scroll_event scene event priv
    = Returns true priv (routed_deltas (text_direction scene) event).
Proof.
  intros scene priv [emulated direction [dx dy]] Hmouse Hemulated.
  simpl in Hemulated. subst emulated.
  unfold st_scroll_view_scroll_event, routed_deltas, bind at 1, get_priv.
  rewrite Hmouse.
  destruct direction, (is_rtl (text_direction scene));
    cbv [bind ret emit st_adjustment_adjust_for_scroll_event
         adjust_with_direction pointer_emulated scroll_direction scroll_delta
         negb app fst snd];
    rewrite ?Qmult_minus_one; reflexivity.
Qed.

Lemma scroll_event_routes_deltas_witness :
  st_scroll_view_scroll_event (Example.plain_scene CLUTTER_TEXT_DIRECTION_RTL)
    (mkEvent false CLUTTER_SCROLL_SMOOTH (5, -3)) Example.fresh_view
  = Returns true Example.fresh_view
      [AdjustForScrollEvent Horizontal (-5); AdjustForScrollEvent Vertical (-3)].
Proof.
  exact (scroll_event_routes_deltas
           (Example.plain_scene CLUTTER_TEXT_DIRECTION_RTL)
           Example.fresh_view (mkEvent false CLUTTER_SCROLL_SMOOTH (5, -3))
           eq_refl eq_refl).
Defined.

(** C8 as stated fails on an event that carries the pointer-emulated flag:
    with mouse scrolling enabled, a smooth event with deltas (5, -3) under
    left-to-right is reported handled and forwards nothing, where the
    description's routing forwards 5 and -3. *)
Lemma scroll_event_emulated_forwards_nothing :
  mouse_scroll Example.fresh_view = true
  /\ st_scroll_view_scroll_event (Example.plain_scene CLUTTER_TEXT_DIRECTION_LTR)
       (mkEvent true CLUTTER_SCROLL_SMOOTH (5, -3)) Example.fresh_view
     = Returns true Example.fresh_view []
  /\ routed_deltas CLUTTER_TEXT_DIRECTION_LTR
       (mkEvent true CLUTTER_SCROLL_SMOOTH (5, -3))
     = [AdjustForScrollEvent Horizontal 5; AdjustForScrollEvent Vertical (-3)].
Proof. repeat split. Qed.

(** With mouse scrolling disabled the handler reports every event unhandled
    and forwards nothing. *)
Theorem scroll_event_ignored_when_disabled :
  forall (scene : Scene) (priv : StScrollViewPrivate) (event : ClutterEvent),
    mouse_scroll priv = false ->
    st_scroll_view_scroll_event scene event priv = Returns false priv [].
Proof.
  intros scene priv event Hmouse.
  unfold st_scroll_view_scroll_event, bind, get_priv.
  rewrite Hmouse. reflexivity.
Qed.

Lemma scroll_event_ignored_when_disabled_witness :
  st_scroll_view_scroll_event (Example.plain_scene CLUTTER_TEXT_DIRECTION_LTR)
    (mkEvent false CLUTTER_SCROLL_DOWN (0, 0))
    (with_mouse_scroll false Example.fresh_view)
  = Returns false (with_mouse_scroll false Example.fresh_view) [].
Proof.
  apply scroll_event_ignored_when_disabled. reflexivity.
Defined.

(** ** Removing an actor *)

(** C4, as the code has it. Removing an actor that is neither the tracked
    child nor either scrollbar does not abort: the condition handed to
    [g_assert] is a string literal, which is always true, so the call returns
    normally, the private data is unchanged and the actor is detached with
    [clutter_actor_remove_child]. *)
Theorem remove_unknown_actor_does_not_abort :
  forall (priv : StScrollViewPrivate) (actor : ActorId),
    child priv <> Some actor ->
    vscroll priv <> Some actor ->
    hscroll priv <> Some actor ->
    st_scroll_view_remove actor priv = Returns tt priv [RemoveChild actor].
Proof.
  intros priv actor Hchild Hvscroll Hhscroll.
  unfold st_scroll_view_remove, bind at 1, get_priv.
  destruct (actor_eqb_spec actor (child priv)); [contradiction|].
  unfold bind at 1.
  destruct (actor_eqb_spec actor (vscroll priv)); [contradiction|].
  destruct (actor_eqb_spec actor (hscroll priv)); [contradiction|].
  reflexivity.
Qed.

Lemma remove_unknown_actor_does_not_abort_witness :
  st_scroll_view_remove Example.stray_actor Example.fresh_view
  = Returns tt Example.fresh_view [RemoveChild Example.stray_actor].
Proof.
  apply remove_unknown_actor_does_not_abort; discriminate.
Defined.

(** ** Preferred size *)

(** C10. A preferred-width or preferred-height query made while the view has
    no child returns at once: the two output locations keep the contents they
    had, the private data is unchanged, and no collaborator is called (so the
    theme's adjustment is not applied). *)
Theorem preferred_size_without_child_writes_nothing :
  forall (scene : Scene) (priv : StScrollViewPrivate) (for_size : gfloat)
         (min_p natural_p : option gfloat),
    child priv = None ->
    st_scroll_view_get_preferred_width scene for_size min_p natural_p priv
    = Returns (min_p, natural_p) priv []
    /\ st_scroll_view_get_preferred_height scene for_size min_p natural_p priv
       = Returns (min_p, natural_p) priv [].
Proof.
  intros scene priv for_size min_p natural_p Hchild.
  unfold st_scroll_view_get_preferred_width, st_scroll_view_get_preferred_height,
    bind, get_priv.
  rewrite Hchild. split; reflexivity.
Qed.

Lemma preferred_size_without_child_writes_nothing_witness :
  st_scroll_view_get_preferred_width
    (Example.plain_scene CLUTTER_TEXT_DIRECTION_LTR) (px (-1))
    (Some (px 7)) (Some (px 9)) Example.fresh_view
  = Returns (Some (px 7), Some (px 9)) Example.fresh_view []
  /\ st_scroll_view_get_preferred_height
       (Example.plain_scene CLUTTER_TEXT_DIRECTION_LTR) (px (-1))
       (Some (px 7)) (Some (px 9)) Example.fresh_view
     = Returns (Some (px 7), Some (px 9)) Example.fresh_view [].
Proof.
  apply preferred_size_without_child_writes_nothing. reflexivity.
Defined.

Lemma get_scrollbar_width_returns
  (scene : Scene) (for_height : gfloat) (priv : StScrollViewPrivate) :
  get_scrollbar_width scene for_height priv
  = Returns (scrollbar_width scene (vscroll priv) for_height) priv
      (scrollbar_width_log scene (vscroll priv) for_height).
Proof.
  unfold get_scrollbar_width, scrollbar_width, scrollbar_width_log,
    bind at 1, get_priv.
  destruct (vscroll priv) as [vs|]; [|reflexivity].
  destruct (actor_is_visible scene vs); [|reflexivity].
  unfold clutter_actor_get_preferred_width, bind, emit, ret.
  destruct (actor_preferred_width scene vs for_height); reflexivity.
Qed.

Lemma get_scrollbar_height_returns
  (scene : Scene) (for_width : gfloat) (priv : StScrollViewPrivate) :
  get_scrollbar_height scene for_width priv
  = Returns (scrollbar_height scene (hscroll priv) for_width) priv
      (scrollbar_height_log scene (hscroll priv) for_width).
Proof.
  unfold get_scrollbar_height, scrollbar_height, scrollbar_height_log,
    bind at 1, get_priv.
  destruct (hscroll priv) as [hs|]; [|reflexivity].
  destruct (actor_is_visible scene hs); [|reflexivity].
  unfold clutter_actor_get_preferred_height, bind, emit, ret.
  destruct (actor_preferred_height scene hs for_width); reflexivity.
Qed.

(** C6, as the code has it. With a child present, the widths handed to the
    theme's adjustment are: as minimum, the child's minimum width under the
    NEVER horizontal policy and 0 otherwise; as natural, the child's natural
    width; both increased, exactly when the vertical policy is ALWAYS or
    AUTOMATIC and scrollbars are not overlaid, by the vertical scrollbar's
    allowance, which is its minimum preferred width for the theme-adjusted
    height if the scrollbar actor is currently visible and 0 if it is not.
    The increase is a [float] addition, so each width is the sum rounded to
    the nearest float. *)
Theorem preferred_width_with_child :
  forall (scene : Scene) (priv : StScrollViewPrivate) (ch : ActorId)
         (for_height : gfloat) (min_p natural_p : option gfloat),
    child priv = Some ch ->
    let allowance :=
      scrollbar_width scene (vscroll priv)
        (theme_adjust_for_height scene for_height) in
    let '(min_width, natural_width) :=
      described_preferred_width scene priv ch allowance in
    exists log,
      st_scroll_view_get_preferred_width scene for_height min_p natural_p priv
      = Returns
          (theme_adjust_preferred_width scene
             (store min_p min_width) (store natural_p natural_width))
          priv log.
Proof.
  intros scene priv ch for_height min_p natural_p Hchild.
  unfold st_scroll_view_get_preferred_width, described_preferred_width,
    bind at 1, get_priv.
  rewrite Hchild.
  unfold bind at 1, clutter_actor_get_preferred_width at 1, bind at 1, emit, ret.
  destruct (actor_preferred_width scene ch (gfloat_of_int (-1)))
    as [child_min child_natural].
  destruct (hscrollbar_policy priv), (vscrollbar_policy priv),
    (overlay_scrollbars priv);
    cbv [reserves_space policy_eqb negb bind ret];
    rewrite ?get_scrollbar_width_returns;
    eexists; reflexivity.
Qed.

Lemma preferred_width_with_child_witness :
  exists log,
    st_scroll_view_get_preferred_width
      (Example.plain_scene CLUTTER_TEXT_DIRECTION_LTR) (px (-1))
      (Some (px 0)) (Some (px 0)) Example.view_with_child
    = Returns (Some (px 16), Some (px 16)) Example.view_with_child log.
Proof.
  exact (preferred_width_with_child
           (Example.plain_scene CLUTTER_TEXT_DIRECTION_LTR)
           Example.view_with_child (px (-1)) (Some (px 0)) (Some (px 0))
           (ch := Example.child_actor) eq_refl).
Defined.

(** C6 as stated fails when the vertical scrollbar actor is hidden. With
    both policies AUTOMATIC, scrollbars not overlaid, a child of minimum
    width 100 and natural width 200 and a vertical scrollbar whose preferred
    width is 16, the query answers (0, 200): nothing was added, where the
    description adds the scrollbar's preferred width and gives (16, 216). *)
Lemma preferred_width_ignores_hidden_scrollbar :
  st_scroll_view_get_preferred_width Example.hidden_vscroll_scene (px (-1))
    (Some (px 0)) (Some (px 0)) Example.view_with_child
  = Returns (Some (px 0), Some (px 200)) Example.view_with_child
      [GetPreferredWidth Example.child_actor (px (-1))]
  /\ reserves_space (vscrollbar_policy Example.view_with_child)
       (overlay_scrollbars Example.view_with_child) = true
  /\ fst (actor_preferred_width Example.hidden_vscroll_scene
            Example.vscroll_actor (px (-1))) = px 16
  /\ described_preferred_width Example.hidden_vscroll_scene
       Example.view_with_child Example.child_actor (px 16)
     = (px 16, px 216).
Proof. repeat split. Qed.

(** The sums are rounded. With both policies AUTOMATIC, a child of minimum
    and natural width 299.7 and a vertical scrollbar 0.3 thick, the query
    answers 0.3 and 300: the float nearest to 299.7 plus the float nearest
    to 0.3 is 300. *)
Example preferred_width_rounds_the_sum :
  st_scroll_view_get_preferred_width Example.thin_bars_scene (px (-1))
    (Some (px 0)) (Some (px 0)) Example.view_with_child
  = Returns (Some (Example.tenths 3), Some (px 300)) Example.view_with_child
      [GetPreferredWidth Example.child_actor (px (-1));
       GetPreferredWidth Example.vscroll_actor (px (-1))].
Proof. reflexivity. Qed.

(** ** Allocation: how one call unfolds *)

Lemma with_flags_self (p : StScrollViewPrivate) :
  with_flags (hscrollbar_visible p) (vscrollbar_visible p) p = p.
Proof. now destruct p. Qed.

Lemma notify_log_same (b : bool) (p : Property) : notify_log b b p = [].
Proof. now destruct b. Qed.

Lemma reserved_thickness (p : StPolicyType) (overlay : bool) (sb : gfloat) :
  (if policy_eqb p ST_POLICY_NEVER || policy_eqb p ST_POLICY_EXTERNAL || overlay
   then gfloat_of_int 0 else sb)
  = (if reserves_space p overlay then sb else gfloat_of_int 0).
Proof. now destruct p, overlay. Qed.

Ltac normalize_log :=
  repeat (rewrite <- app_assoc || rewrite app_nil_r || rewrite app_nil_l);
  cbn [app].

(** Once the visibility decision is known, the rest of [allocate] is fixed:
    it records the box, sizes the scrollbars, decides, allocates the
    scrollbars and the child, stores the two flags and notifies each one
    that changed. *)
Lemma allocate_returns
  (scene : Scene) (box : ClutterActorBox) (priv : StScrollViewPrivate)
  (h v : bool) (decision_log : list Effect) :
  determine_visibility scene (avail_width scene box) (avail_height scene box)
    (fst (scrollbar_thickness scene priv)) (snd (scrollbar_thickness scene priv))
    priv
  = Returns (h, v) priv decision_log ->
  st_scroll_view_allocate scene box priv
  = Returns tt (with_flags h v priv)
      (SetAllocation box
       :: scrollbar_thickness_log scene priv
       ++ decision_log
       ++ described_allocations scene priv box h v
       ++ notify_log (hscrollbar_visible priv) h PROP_HSCROLLBAR_VISIBLE
       ++ notify_log (vscrollbar_visible priv) v PROP_VSCROLLBAR_VISIBLE).
Proof.
  unfold described_allocations, described_child_box, st_scroll_view_allocate.
  unfold avail_width, avail_height, scrollbar_thickness, scrollbar_thickness_log.
  intro Hdecide.
  unfold bind at 1, get_priv. unfold bind at 1, emit at 1.
  unfold bind at 1.
  destruct (request_mode scene);
    cbv beta iota zeta delta [bind ret fst snd] in Hdecide |- *;
    rewrite ?get_scrollbar_width_returns, ?get_scrollbar_height_returns;
    cbv beta iota zeta;
    rewrite ?get_scrollbar_width_returns, ?get_scrollbar_height_returns;
    cbv beta iota zeta;
    rewrite Hdecide;
    destruct priv as [c ha hs va vs hp vp rs cs rss css ms ov hv vv];
    destruct c, hv, h, vv, v;
    cbv beta iota zeta delta [bind ret emit clutter_actor_allocate when assign
         g_object_notify_by_pspec notify_log non_null Bool.eqb negb
         described_vscroll_box described_hscroll_box
         with_flags with_hscrollbar_visible
         with_vscrollbar_visible child hadjustment hscroll vadjustment
         vscroll hscrollbar_policy vscrollbar_policy row_size
         column_size row_size_set column_size_set mouse_scroll
         overlay_scrollbars hscrollbar_visible vscrollbar_visible];
    normalize_log; rewrite ?reserved_thickness; reflexivity.
Qed.

(** ** The visibility decision *)

(** Unfolds one run of [determine_visibility] down to its comparisons. *)
Ltac run_determine_visibility :=
  cbv beta iota zeta delta
    [determine_visibility bind ret get_priv emit
     clutter_actor_get_preferred_width clutter_actor_get_preferred_height
     policy_eqb negb andb app with_flags with_hscrollbar_visible
     with_vscrollbar_visible child hadjustment hscroll vadjustment
     vscroll hscrollbar_policy vscrollbar_policy row_size
     column_size row_size_set column_size_set mouse_scroll
     overlay_scrollbars hscrollbar_visible vscrollbar_visible];
  repeat match goal with
    | |- context [actor_preferred_width ?s ?a ?q] =>
        destruct (actor_preferred_width s a q) as [? ?]
    | |- context [actor_preferred_height ?s ?a ?q] =>
        destruct (actor_preferred_height s a q) as [? ?]
    end;
  cbv beta iota zeta delta [app];
  repeat match goal with
    | |- context [if ?c then _ else _] => destruct c
    end.

(** The decision always returns, leaves the private data alone, and neither
    its result nor its log depends on the flags stored by an earlier call. *)
Lemma determine_visibility_returns
  (scene : Scene) (aw ah sbw sbh : gfloat) (priv : StScrollViewPrivate) :
  exists h v l,
    (forall hv vv,
        determine_visibility scene aw ah sbw sbh (with_flags hv vv priv)
        = Returns (h, v) (with_flags hv vv priv) l)
    /\ notifications l = []
    /\ allocations l = [].
Proof.
  destruct priv as [c ha hs va vs hp vp rs cs rss css ms ov hv0 vv0].
  destruct c, hp, vp; run_determine_visibility;
    do 3 eexists; (split; [intros; reflexivity | split; reflexivity]).
Qed.

Lemma determine_visibility_respects_policy
  (scene : Scene) (aw ah sbw sbh : gfloat) (priv : StScrollViewPrivate) :
  exists h v l,
    determine_visibility scene aw ah sbw sbh priv = Returns (h, v) priv l
    /\ (hscrollbar_policy priv = ST_POLICY_ALWAYS -> h = true)
    /\ (hscrollbar_policy priv = ST_POLICY_NEVER
        \/ hscrollbar_policy priv = ST_POLICY_EXTERNAL -> h = false)
    /\ (vscrollbar_policy priv = ST_POLICY_ALWAYS -> v = true)
    /\ (vscrollbar_policy priv = ST_POLICY_NEVER
        \/ vscrollbar_policy priv = ST_POLICY_EXTERNAL -> v = false)
    /\ (child priv = None ->
        (h = true <-> hscrollbar_policy priv <> ST_POLICY_NEVER
                      /\ hscrollbar_policy priv <> ST_POLICY_EXTERNAL)
        /\ (v = true <-> vscrollbar_policy priv <> ST_POLICY_NEVER
                         /\ vscrollbar_policy priv <> ST_POLICY_EXTERNAL)).
Proof.
  destruct priv as [c ha hs va vs hp vp rs cs rss css ms ov hv0 vv0].
  destruct c, hp, vp; run_determine_visibility;
    do 3 eexists; (split; [reflexivity|]);
    repeat split; intros; intuition congruence.
Qed.

(** C3. Every [allocate] call returns, keeps both policies, and stores
    visibility flags that agree with them: a flag is true under ALWAYS and
    false under NEVER and under EXTERNAL, with or without a child; and with
    no child each flag is true exactly when its policy is neither NEVER nor
    EXTERNAL. *)
Theorem allocate_visibility_respects_policy :
  forall (scene : Scene) (box : ClutterActorBox) (priv : StScrollViewPrivate),
  exists priv' log,
    st_scroll_view_allocate scene box priv = Returns tt priv' log
    /\ hscrollbar_policy priv' = hscrollbar_policy priv
    /\ vscrollbar_policy priv' = vscrollbar_policy priv
    /\ (hscrollbar_policy priv = ST_POLICY_ALWAYS ->
        hscrollbar_visible priv' = true)
    /\ (hscrollbar_policy priv = ST_POLICY_NEVER
        \/ hscrollbar_policy priv = ST_POLICY_EXTERNAL ->
        hscrollbar_visible priv' = false)
    /\ (vscrollbar_policy priv = ST_POLICY_ALWAYS ->
        vscrollbar_visible priv' = true)
    /\ (vscrollbar_policy priv = ST_POLICY_NEVER
        \/ vscrollbar_policy priv = ST_POLICY_EXTERNAL ->
        vscrollbar_visible priv' = false)
    /\ (child priv = None ->
        (hscrollbar_visible priv' = true
         <-> hscrollbar_policy priv <> ST_POLICY_NEVER
             /\ hscrollbar_policy priv <> ST_POLICY_EXTERNAL)
        /\ (vscrollbar_visible priv' = true
            <-> vscrollbar_policy priv <> ST_POLICY_NEVER
                /\ vscrollbar_policy priv <> ST_POLICY_EXTERNAL)).
Proof.
  intros scene box priv.
  destruct (determine_visibility_respects_policy scene
              (avail_width scene box) (avail_height scene box)
              (fst (scrollbar_thickness scene priv))
              (snd (scrollbar_thickness scene priv)) priv)
    as (h & v & l & Hrun & Hpolicy).
  rewrite (allocate_returns _ _ Hrun).
  exists (with_flags h v priv). eexists.
  split; [reflexivity|]. split; [reflexivity|]. split; [reflexivity|].
  exact Hpolicy.
Qed.

(** *** Both policies AUTOMATIC *)

Lemma determine_visibility_both_automatic
  (scene : Scene) (aw ah sbw sbh : gfloat) (priv : StScrollViewPrivate) (ch : ActorId) :
  child priv = Some ch ->
  hscrollbar_policy priv = ST_POLICY_AUTOMATIC ->
  vscrollbar_policy priv = ST_POLICY_AUTOMATIC ->
  let probe :=
    described_two_pass (fun w => fst (actor_preferred_height scene ch w))
      (fst (actor_preferred_width scene ch (px (-1)))) aw ah sbw sbh in
  determine_visibility scene aw ah sbw sbh priv
  = Returns (two_pass_hvisible probe, two_pass_vvisible probe) priv
      (GetPreferredWidth ch (px (-1))
       :: map (GetPreferredHeight ch)
            (probe_widths aw sbw (two_pass_vvisible probe))).
Proof.
  destruct priv as [c ha hs va vs hp vp rs cs rss css ms ov hv0 vv0].
  simpl. intros -> -> ->.
  cbv beta iota zeta delta
    [determine_visibility bind ret get_priv emit
     clutter_actor_get_preferred_width clutter_actor_get_preferred_height
     policy_eqb child hscrollbar_policy vscrollbar_policy
     described_two_pass two_pass_hvisible two_pass_vvisible probe_widths].
  destruct (actor_preferred_width scene ch (px (-1))) as [child_min_width ?].
  destruct (actor_preferred_height scene ch aw) as [child_min_height ?].
  cbv beta iota zeta delta [fst app].
  destruct (fgt child_min_height ah);
    destruct (fgt child_min_width (fsub aw sbw));
    try destruct (fgt child_min_width (fsub aw (px 0)));
    cbv beta iota;
    try destruct (fgt child_min_height (fsub ah sbh));
    try destruct (fgt child_min_height (fsub ah (px 0)));
    cbv beta iota;
    try destruct (actor_preferred_height scene ch (MAX (fsub aw sbw) (px 0)));
    reflexivity.
Qed.

(** Pass two never raises the horizontal flag: if pass one left it false, it
    is false at the end. When the provisional vertical flag is true, pass two
    repeats the comparison pass one made; when it is false, the vertical flag
    is compared against the available height less the constant 0, which is
    the available height itself, and stays false, so pass two does not run. *)
Lemma two_pass_never_raises_hvisible
  (child_height_at : gfloat -> gfloat) (child_min_width aw ah sbw sbh : gfloat) :
  let probe := described_two_pass child_height_at child_min_width aw ah sbw sbh in
  pass_one_hvisible probe = false -> two_pass_hvisible probe = false.
Proof.
  unfold described_two_pass; simpl.
  destruct (fgt (child_height_at aw) ah) eqn:Hprov.
  - intros ->. now destruct (fgt (child_height_at aw) (fsub ah (px 0))).
  - intros ->. rewrite fsub_zero, Hprov. reflexivity.
Qed.


(** [allocate] with a child and both policies AUTOMATIC: the whole call. *)
Lemma allocate_both_automatic_returns
  (scene : Scene) (box : ClutterActorBox) (priv : StScrollViewPrivate)
  (ch : ActorId) :
  child priv = Some ch ->
  hscrollbar_policy priv = ST_POLICY_AUTOMATIC ->
  vscrollbar_policy priv = ST_POLICY_AUTOMATIC ->
  let aw := avail_width scene box in
  let sbw := fst (scrollbar_thickness scene priv) in
  let probe :=
    described_two_pass (fun w => fst (actor_preferred_height scene ch w))
      (fst (actor_preferred_width scene ch (px (-1)))) aw (avail_height scene box)
      sbw (snd (scrollbar_thickness scene priv)) in
  st_scroll_view_allocate scene box priv
  = Returns tt
      (with_flags (two_pass_hvisible probe) (two_pass_vvisible probe) priv)
      (SetAllocation box
       :: scrollbar_thickness_log scene priv
       ++ (GetPreferredWidth ch (px (-1))
           :: map (GetPreferredHeight ch)
                (probe_widths aw sbw (two_pass_vvisible probe)))
       ++ described_allocations scene priv box
            (two_pass_hvisible probe) (two_pass_vvisible probe)
       ++ notify_log (hscrollbar_visible priv) (two_pass_hvisible probe)
            PROP_HSCROLLBAR_VISIBLE
       ++ notify_log (vscrollbar_visible priv) (two_pass_vvisible probe)
            PROP_VSCROLLBAR_VISIBLE).
Proof.
  intros Hchild Hh Hv aw sbw probe.
  apply allocate_returns.
  exact (determine_visibility_both_automatic scene aw _ sbw _ priv Hchild Hh Hv).
Qed.

(** C1, as the code has it. With a child present and both policies
    AUTOMATIC, [allocate] resolves visibility by the two-pass probe: the
    flags it stores are those of [described_two_pass] (pass one at the full
    available width: provisional vertical flag, horizontal flag against the
    available width less the provisional vertical allowance, vertical flag
    against the available height less the horizontal allowance; pass two,
    when the vertical flag is true, redoes the horizontal check against the
    available width less the vertical scrollbar's width). The available
    width and height and every such difference are [float] subtractions,
    each rounded to the nearest float before it is compared. The calls are,
    in order: the box, the scrollbar sizing, the child's preferred width,
    the child's preferred height at each of [probe_widths] (the full
    available width, then for pass two the available width less the
    vertical scrollbar's width, or 0 if that difference is not above 0), the
    allocations and the notifications. Pass two never turns a false
    horizontal flag true. *)
Theorem allocate_two_pass_probe :
  forall (scene : Scene) (box : ClutterActorBox) (priv : StScrollViewPrivate)
         (ch : ActorId),
    child priv = Some ch ->
    hscrollbar_policy priv = ST_POLICY_AUTOMATIC ->
    vscrollbar_policy priv = ST_POLICY_AUTOMATIC ->
    let aw := avail_width scene box in
    let ah := avail_height scene box in
    let sbw := fst (scrollbar_thickness scene priv) in
    let sbh := snd (scrollbar_thickness scene priv) in
    let probe :=
      described_two_pass (fun w => fst (actor_preferred_height scene ch w))
        (fst (actor_preferred_width scene ch (px (-1)))) aw ah sbw sbh in
    exists priv' log,
      st_scroll_view_allocate scene box priv = Returns tt priv' log
      /\ hscrollbar_visible priv' = two_pass_hvisible probe
      /\ vscrollbar_visible priv' = two_pass_vvisible probe
      /\ log
         = SetAllocation box
           :: scrollbar_thickness_log scene priv
           ++ (GetPreferredWidth ch (px (-1))
               :: map (GetPreferredHeight ch)
                    (probe_widths aw sbw (two_pass_vvisible probe)))
           ++ described_allocations scene priv box
                (two_pass_hvisible probe) (two_pass_vvisible probe)
           ++ notify_log (hscrollbar_visible priv) (two_pass_hvisible probe)
                PROP_HSCROLLBAR_VISIBLE
           ++ notify_log (vscrollbar_visible priv) (two_pass_vvisible probe)
                PROP_VSCROLLBAR_VISIBLE
      /\ (pass_one_hvisible probe = false -> hscrollbar_visible priv' = false).
Proof.
  intros scene box priv ch Hchild Hh Hv aw ah sbw sbh probe.
  exists (with_flags (two_pass_hvisible probe) (two_pass_vvisible probe) priv).
  eexists.
  split; [exact (allocate_both_automatic_returns scene box priv Hchild Hh Hv)|].
  repeat split.
  exact (two_pass_never_raises_hvisible _ _ _ _ _ _).
Qed.

Lemma allocate_two_pass_probe_witness :
  exists priv' log,
    st_scroll_view_allocate Example.scenario_scene
      (mkBox (px 0) (px 0) (px 300) (px 200))
      Example.view_with_child = Returns tt priv' log
    /\ hscrollbar_visible priv' = true
    /\ vscrollbar_visible priv' = true
    /\ height_queries Example.child_actor log = [px 300; px 284].
Proof.
  destruct (allocate_two_pass_probe Example.scenario_scene
              (mkBox (px 0) (px 0) (px 300) (px 200))
              Example.view_with_child (ch := Example.child_actor)
              eq_refl eq_refl eq_refl)
    as (priv' & log & Hrun & Hh & Hv & Hlog & _).
  exists priv', log. repeat split.
  - exact Hrun.
  - rewrite Hh. reflexivity.
  - rewrite Hv. reflexivity.
  - rewrite Hlog. vm_compute. reflexivity.
Defined.



(** In the description's own scenario both scrollbars come out visible, and
    the horizontal one already after pass one. *)
Example two_pass_scenario :
  let probe :=
    described_two_pass (fun w => if fgt (px 300) w then px 150 else px 250)
      (px 290) (px 300) (px 200) (px 16) (px 16) in
  pass_one_hvisible probe = true
  /\ two_pass_hvisible probe = true
  /\ two_pass_vvisible probe = true.
Proof. repeat split. Qed.

(** C1 as stated fails in two places. First, pass two does not measure at
    the available width less the scrollbar width when that is negative: in a
    content box 10 wide with scrollbars 16 thick and a child 250 high, the
    child is measured at widths 10 and 0, where the description has 10 and
    10 - 16, that is -6. Second, pass two cannot flip the horizontal flag to
    true: no call with a child and two AUTOMATIC policies ends with the
    horizontal scrollbar visible when pass one had left it hidden. *)
Lemma two_pass_probe_not_as_described :
  (exists priv' log,
      st_scroll_view_allocate Example.tall_scene
        (mkBox (px 0) (px 0) (px 10) (px 200))
        Example.view_with_child = Returns tt priv' log
      /\ vscrollbar_visible priv' = true
      /\ height_queries Example.child_actor log = [px 10; px 0])
  /\ (measured_widths
        (described_two_pass (fun _ => px 250) (px 0) (px 10) (px 200)
           (px 16) (px 16))
      = [px 10; px (-6)]
      /\ px 0 <> px (-6))
  /\ ~ (exists scene box priv ch priv' log,
           child priv = Some ch
           /\ hscrollbar_policy priv = ST_POLICY_AUTOMATIC
           /\ vscrollbar_policy priv = ST_POLICY_AUTOMATIC
           /\ st_scroll_view_allocate scene box priv = Returns tt priv' log
           /\ pass_one_hvisible
                (described_two_pass
                   (fun w => fst (actor_preferred_height scene ch w))
                   (fst (actor_preferred_width scene ch (px (-1))))
                   (avail_width scene box) (avail_height scene box)
                   (fst (scrollbar_thickness scene priv))
                   (snd (scrollbar_thickness scene priv))) = false
           /\ hscrollbar_visible priv' = true).
Proof.
  split; [|split].
  - do 2 eexists. split; [vm_compute; reflexivity|]. split; reflexivity.
  - split; [reflexivity | discriminate].
  - intros (scene & box & priv & ch & priv' & log
            & Hchild & Hh & Hv & Hrun & Hone & Hfinal).
    pose proof (allocate_both_automatic_returns scene box priv Hchild Hh Hv)
      as Hrun'.
    apply two_pass_never_raises_hvisible in Hone.
    cbv zeta in Hrun', Hone. rewrite Hone, Hrun in Hrun'.
    injection Hrun' as -> _. discriminate Hfinal.
Qed.

(** Rounding decides a flag. In a content box 300 by 200, with scrollbars
    0.3 thick and a child 299.7 wide and 250 high, the vertical scrollbar is
    needed; the width left beside it, 300 - 0.3, is rounded to the float
    nearest to 299.7, which is the child's width and so not exceeded by it:
    the horizontal scrollbar stays hidden, and pass two measures the child
    at that width. *)
Example two_pass_rounds_the_width_left :
  exists priv' log,
    st_scroll_view_allocate Example.thin_bars_scene
      (mkBox (px 0) (px 0) (px 300) (px 200))
      Example.view_with_child = Returns tt priv' log
    /\ vscrollbar_visible priv' = true
    /\ hscrollbar_visible priv' = false
    /\ height_queries Example.child_actor log = [px 300; Example.tenths 2997].
Proof.
  do 2 eexists. split; [vm_compute; reflexivity|]. repeat split.
Qed.

(** *** Only the horizontal policy AUTOMATIC *)

(** What the code decides with a child, an AUTOMATIC horizontal policy and a
    fixed vertical one: the vertical flag is true exactly under ALWAYS, and
    the horizontal flag compares the child's minimum width with the
    available height, less the vertical scrollbar's width when the vertical
    scrollbar is not visible. *)
Lemma determine_visibility_fixed_vertical
  (scene : Scene) (aw ah sbw sbh : gfloat) (priv : StScrollViewPrivate) (ch : ActorId) :
  child priv = Some ch ->
  hscrollbar_policy priv = ST_POLICY_AUTOMATIC ->
  vscrollbar_policy priv <> ST_POLICY_AUTOMATIC ->
  let v := policy_eqb (vscrollbar_policy priv) ST_POLICY_ALWAYS in
  determine_visibility scene aw ah sbw sbh priv
  = Returns
      (fgt (fst (actor_preferred_width scene ch (px (-1))))
         (fsub ah (if v then px 0 else sbw)), v)
      priv [GetPreferredWidth ch (px (-1))].
Proof.
  destruct priv as [c ha hs va vs hp vp rs cs rss css ms ov hv0 vv0].
  simpl. intros -> -> Hv.
  destruct vp; try contradiction;
    cbv beta iota zeta delta
      [determine_visibility bind ret get_priv emit
       clutter_actor_get_preferred_width policy_eqb child
       hscrollbar_policy vscrollbar_policy app];
    destruct (actor_preferred_width scene ch (px (-1))); reflexivity.
Qed.

(** With a child, an AUTOMATIC horizontal policy and a fixed vertical one,
    [allocate] shows the vertical scrollbar exactly under ALWAYS, and the
    horizontal one exactly when the child's minimum width exceeds the
    available height less ([float] subtraction, rounded) the vertical
    scrollbar's width when the vertical scrollbar is not visible, and less
    the constant 0 when it is. *)
Theorem allocate_fixed_vertical :
  forall (scene : Scene) (box : ClutterActorBox) (priv : StScrollViewPrivate)
         (ch : ActorId),
    child priv = Some ch ->
    hscrollbar_policy priv = ST_POLICY_AUTOMATIC ->
    vscrollbar_policy priv <> ST_POLICY_AUTOMATIC ->
    exists priv' log,
      st_scroll_view_allocate scene box priv = Returns tt priv' log
      /\ vscrollbar_visible priv'
         = policy_eqb (vscrollbar_policy priv) ST_POLICY_ALWAYS
      /\ hscrollbar_visible priv'
         = fgt (fst (actor_preferred_width scene ch (px (-1))))
             (fsub (avail_height scene box)
                (if vscrollbar_visible priv' then px 0
                 else fst (scrollbar_thickness scene priv))).
Proof.
  intros scene box priv ch Hchild Hh Hv.
  do 2 eexists. split.
  - apply allocate_returns.
    exact (determine_visibility_fixed_vertical scene _ _ _ _ priv Hchild Hh Hv).
  - split; reflexivity.
Qed.

Lemma allocate_fixed_vertical_witness :
  exists priv' log,
    st_scroll_view_allocate Example.wide_scene
      (mkBox (px 0) (px 0) (px 300) (px 200))
      (Example.view_with_policy ST_POLICY_AUTOMATIC ST_POLICY_ALWAYS)
    = Returns tt priv' log
    /\ vscrollbar_visible priv' = true
    /\ hscrollbar_visible priv' = false.
Proof.
  assert (Hv : vscrollbar_policy
                 (Example.view_with_policy ST_POLICY_AUTOMATIC ST_POLICY_ALWAYS)
               <> ST_POLICY_AUTOMATIC) by discriminate.
  destruct (allocate_fixed_vertical Example.wide_scene
              (mkBox (px 0) (px 0) (px 300) (px 200))
              (Example.view_with_policy ST_POLICY_AUTOMATIC ST_POLICY_ALWAYS)
              (ch := Example.child_actor) eq_refl eq_refl Hv)
    as (priv' & log & Hrun & Hvv & Hhv).
  exists priv', log. split; [exact Hrun|]. split.
  - rewrite Hvv. reflexivity.
  - rewrite Hhv, Hvv. reflexivity.
Defined.

(** C2 fails on the code. With a child of minimum width 190 in a content box
    300 by 200, scrollbars 16 thick and an AUTOMATIC horizontal policy:
    under the ALWAYS vertical policy the vertical scrollbar is visible and
    the code compares 190 with 200, so the horizontal scrollbar stays
    hidden, where the description compares 190 with 200 - 16 and shows it;
    under the NEVER vertical policy the vertical scrollbar is hidden and
    the code compares 190 with 200 - 16, so the horizontal scrollbar is
    shown, where the description compares 190 with 200 and hides it. *)
Theorem fixed_vertical_allowance_is_inverted :
  (exists priv' log,
      st_scroll_view_allocate Example.wide_scene
        (mkBox (px 0) (px 0) (px 300) (px 200))
        (Example.view_with_policy ST_POLICY_AUTOMATIC ST_POLICY_ALWAYS)
      = Returns tt priv' log
      /\ vscrollbar_visible priv' = true
      /\ hscrollbar_visible priv' = false
      /\ described_fixed_vertical_hvisible (px 190) (px 200) (px 16) true = true)
  /\ (exists priv' log,
      st_scroll_view_allocate Example.wide_scene
        (mkBox (px 0) (px 0) (px 300) (px 200))
        (Example.view_with_policy ST_POLICY_AUTOMATIC ST_POLICY_NEVER)
      = Returns tt priv' log
      /\ vscrollbar_visible priv' = false
      /\ hscrollbar_visible priv' = true
      /\ described_fixed_vertical_hvisible (px 190) (px 200) (px 16) false = false).
Proof.
  split; do 2 eexists; (split; [vm_compute; reflexivity|]); repeat split.
Qed.

(** ** Allocating twice *)

Lemma notifications_app (l l' : list Effect) :
  notifications (l ++ l') = notifications l ++ notifications l'.
Proof.
  induction l as [|e l IH]; [reflexivity|].
  destruct e; simpl; rewrite IH; reflexivity.
Qed.

Lemma allocations_app (l l' : list Effect) :
  allocations (l ++ l') = allocations l ++ allocations l'.
Proof.
  induction l as [|e l IH]; [reflexivity|].
  destruct e; simpl; rewrite IH; reflexivity.
Qed.

Lemma scrollbar_thickness_log_quiet (scene : Scene) (priv : StScrollViewPrivate) :
  notifications (scrollbar_thickness_log scene priv) = []
  /\ allocations (scrollbar_thickness_log scene priv) = [].
Proof.
  unfold scrollbar_thickness_log, scrollbar_width_log, scrollbar_height_log.
  destruct (request_mode scene), (vscroll priv) as [vs|], (hscroll priv) as [hs|];
    try destruct (actor_is_visible scene vs);
    try destruct (actor_is_visible scene hs); split; reflexivity.
Qed.

Lemma notify_log_allocations (old new : bool) (p : Property) :
  allocations (notify_log old new p) = [].
Proof. now destruct old, new. Qed.

Lemma described_allocations_notifications
  (scene : Scene) (priv : StScrollViewPrivate) (box : ClutterActorBox)
  (h v : bool) :
  notifications (described_allocations scene priv box h v) = [].
Proof.
  unfold described_allocations.
  destruct (scrollbar_thickness scene priv), (child priv); reflexivity.
Qed.

(** [allocate] started from any stored flags: the decision, the boxes and
    the final flags are the same, only the notifications differ. *)
Lemma allocate_returns_from_flags
  (scene : Scene) (box : ClutterActorBox) (priv : StScrollViewPrivate)
  (h v : bool) (decision_log : list Effect) :
  (forall hv vv,
      determine_visibility scene (avail_width scene box) (avail_height scene box)
        (fst (scrollbar_thickness scene priv))
        (snd (scrollbar_thickness scene priv)) (with_flags hv vv priv)
      = Returns (h, v) (with_flags hv vv priv) decision_log) ->
  forall hv vv,
    st_scroll_view_allocate scene box (with_flags hv vv priv)
    = Returns tt (with_flags h v priv)
        (SetAllocation box
         :: scrollbar_thickness_log scene priv
         ++ decision_log
         ++ described_allocations scene priv box h v
         ++ notify_log hv h PROP_HSCROLLBAR_VISIBLE
         ++ notify_log vv v PROP_VSCROLLBAR_VISIBLE).
Proof.
  intros Hdecide hv vv.
  exact (@allocate_returns scene box (with_flags hv vv priv) h v decision_log
           (Hdecide hv vv)).
Qed.

(** C7. For every state and box, [allocate] called twice in a row with the
    same box returns both times; the second call allocates the same boxes to
    the same actors as the first (those of [described_allocations]), leaves
    the private data, and so both visibility flags, as the first call left
    them, and emits no notification. *)
Theorem allocate_twice_is_idempotent :
  forall (scene : Scene) (box : ClutterActorBox) (priv : StScrollViewPrivate),
  exists priv1 log1 log2,
    st_scroll_view_allocate scene box priv = Returns tt priv1 log1
    /\ st_scroll_view_allocate scene box priv1 = Returns tt priv1 log2
    /\ allocations log2 = allocations log1
    /\ allocations log1
       = allocations
           (described_allocations scene priv box
              (hscrollbar_visible priv1) (vscrollbar_visible priv1))
    /\ notifications log2 = [].
Proof.
  intros scene box priv.
  destruct (determine_visibility_returns scene
              (avail_width scene box) (avail_height scene box)
              (fst (scrollbar_thickness scene priv))
              (snd (scrollbar_thickness scene priv)) priv)
    as (h & v & l & Hdecide & Hnotify & Halloc).
  pose proof (@allocate_returns_from_flags scene box priv h v l Hdecide) as Hrun.
  destruct (scrollbar_thickness_log_quiet scene priv) as [Hsn Hsa].
  exists (with_flags h v priv). do 2 eexists.
  split; [|split; [exact (Hrun h v)|]].
  - rewrite <- (with_flags_self priv) at 1.
    exact (Hrun (hscrollbar_visible priv) (vscrollbar_visible priv)).
  - rewrite !notify_log_same.
    cbn [allocations notifications].
    rewrite !allocations_app, !notifications_app, !notify_log_allocations,
      Hsa, Hsn, Halloc, Hnotify, described_allocations_notifications,
      !app_nil_r.
    repeat split.
Qed.

(** * Further properties *)

(** ** Logs made of size queries *)

Lemma queries_only_projections (l : list Effect) :
  forallb is_size_query l = true ->
  notifications l = [] /\ allocations l = [] /\ relayouts l = 0%nat
  /\ scroll_deltas l = [] /\ size_queries l = l.
Proof.
  induction l as [|e l IH]; [repeat split|].
  destruct e; simpl; try discriminate; intro H;
    destruct (IH H) as (Hn & Ha & Hr & Hd & Hq);
    unfold size_queries in *; simpl; rewrite Hq; repeat split; assumption.
Qed.

Lemma scrollbar_thickness_log_queries_only
  (scene : Scene) (priv : StScrollViewPrivate) :
  forallb is_size_query (scrollbar_thickness_log scene priv) = true.
Proof.
  unfold scrollbar_thickness_log, scrollbar_width_log, scrollbar_height_log.
  destruct (request_mode scene), (vscroll priv) as [vs|], (hscroll priv) as [hs|];
    try destruct (actor_is_visible scene vs);
    try destruct (actor_is_visible scene hs); reflexivity.
Qed.

Lemma determine_visibility_queries_only
  (scene : Scene) (aw ah sbw sbh : gfloat) (priv : StScrollViewPrivate) :
  exists h v l,
    determine_visibility scene aw ah sbw sbh priv = Returns (h, v) priv l
    /\ forallb is_size_query l = true.
Proof.
  destruct priv as [c ha hs va vs hp vp rs cs rss css ms ov hv0 vv0].
  destruct c, hp, vp; run_determine_visibility;
    do 3 eexists; (split; reflexivity).
Qed.

Lemma relayouts_app (l l' : list Effect) :
  relayouts (l ++ l') = (relayouts l + relayouts l')%nat.
Proof.
  induction l as [|e l IH]; [reflexivity|].
  destruct e; simpl; rewrite IH; reflexivity.
Qed.

Lemma scroll_deltas_app (l l' : list Effect) :
  scroll_deltas (l ++ l') = scroll_deltas l ++ scroll_deltas l'.
Proof.
  induction l as [|e l IH]; [reflexivity|].
  destruct e; simpl; rewrite IH; reflexivity.
Qed.

Lemma size_queries_app (l l' : list Effect) :
  size_queries (l ++ l') = size_queries l ++ size_queries l'.
Proof. apply filter_app. Qed.

Lemma described_allocations_projections
  (scene : Scene) (priv : StScrollViewPrivate) (box : ClutterActorBox)
  (h v : bool) :
  relayouts (described_allocations scene priv box h v) = 0%nat
  /\ scroll_deltas (described_allocations scene priv box h v) = []
  /\ size_queries (described_allocations scene priv box h v) = [].
Proof.
  unfold described_allocations.
  destruct (scrollbar_thickness scene priv), (child priv); repeat split.
Qed.

Lemma notify_log_projections (old new : bool) (p : Property) :
  notifications (notify_log old new p) = (if Bool.eqb old new then [] else [p])
  /\ relayouts (notify_log old new p) = 0%nat
  /\ scroll_deltas (notify_log old new p) = []
  /\ size_queries (notify_log old new p) = [].
Proof. destruct old, new; repeat split. Qed.

(** ** What one allocation does and does not do *)

(** Every [allocate] call returns. In the private data it changes nothing
    but the two visibility flags; it notifies exactly the visibility
    properties whose flag changed, horizontal first; it requests no relayout
    and forwards no scroll delta. *)
Theorem allocate_changes_only_flags :
  forall (scene : Scene) (box : ClutterActorBox) (priv : StScrollViewPrivate),
  exists h v log,
    st_scroll_view_allocate scene box priv = Returns tt (with_flags h v priv) log
    /\ notifications log
       = (if Bool.eqb (hscrollbar_visible priv) h
          then [] else [PROP_HSCROLLBAR_VISIBLE])
         ++ (if Bool.eqb (vscrollbar_visible priv) v
             then [] else [PROP_VSCROLLBAR_VISIBLE])
    /\ relayouts log = 0%nat
    /\ scroll_deltas log = [].
Proof.
  intros scene box priv.
  destruct (determine_visibility_queries_only scene
              (avail_width scene box) (avail_height scene box)
              (fst (scrollbar_thickness scene priv))
              (snd (scrollbar_thickness scene priv)) priv)
    as (h & v & l & Hrun & Hl).
  exists h, v. eexists. split; [exact (allocate_returns _ _ Hrun)|].
  destruct (queries_only_projections _ Hl) as (Hn & _ & Hr & Hd & _).
  destruct (queries_only_projections _
              (scrollbar_thickness_log_queries_only scene priv))
    as (Hsn & _ & Hsr & Hsd & _).
  destruct (described_allocations_projections scene priv box h v)
    as (Har & Had & _).
  destruct (notify_log_projections (hscrollbar_visible priv) h
              PROP_HSCROLLBAR_VISIBLE) as (Hhn & Hhr & Hhd & _).
  destruct (notify_log_projections (vscrollbar_visible priv) v
              PROP_VSCROLLBAR_VISIBLE) as (Hvn & Hvr & Hvd & _).
  cbn [notifications relayouts scroll_deltas].
  rewrite !notifications_app, !relayouts_app, !scroll_deltas_app.
  rewrite Hn, Hr, Hd, Hsn, Hsr, Hsd, Har, Had, Hhn, Hhr, Hhd, Hvn, Hvr, Hvd.
  rewrite described_allocations_notifications.
  repeat split.
Qed.

(** ** The visibility decision, case by case *)

(** What the code decides with a child, an AUTOMATIC vertical policy and a
    fixed horizontal one. *)
Lemma determine_visibility_fixed_horizontal
  (scene : Scene) (aw ah sbw sbh : gfloat) (priv : StScrollViewPrivate) (ch : ActorId) :
  child priv = Some ch ->
  vscrollbar_policy priv = ST_POLICY_AUTOMATIC ->
  hscrollbar_policy priv <> ST_POLICY_AUTOMATIC ->
  let h := policy_eqb (hscrollbar_policy priv) ST_POLICY_ALWAYS in
  determine_visibility scene aw ah sbw sbh priv
  = Returns
      (h, fgt (fst (actor_preferred_height scene ch aw))
            (fsub ah (if h then sbh else px 0)))
      priv [GetPreferredWidth ch (px (-1)); GetPreferredHeight ch aw].
Proof.
  destruct priv as [c ha hs va vs hp vp rs cs rss css ms ov hv0 vv0].
  simpl. intros -> -> Hh.
  destruct hp; try contradiction;
    cbv beta iota zeta delta
      [determine_visibility bind ret get_priv emit
       clutter_actor_get_preferred_width clutter_actor_get_preferred_height
       policy_eqb child hscrollbar_policy vscrollbar_policy app];
    destruct (actor_preferred_width scene ch (px (-1)));
    destruct (actor_preferred_height scene ch aw); reflexivity.
Qed.

(** With a child, an AUTOMATIC vertical policy and a fixed horizontal one,
    [allocate] shows the horizontal scrollbar exactly under ALWAYS, and the
    vertical one exactly when the child's minimum height at the full
    available width exceeds the available height less ([float] subtraction,
    rounded) the horizontal scrollbar's height when the horizontal scrollbar
    is visible, and less the constant 0 when it is not. *)
Theorem allocate_fixed_horizontal :
  forall (scene : Scene) (box : ClutterActorBox) (priv : StScrollViewPrivate)
         (ch : ActorId),
    child priv = Some ch ->
    vscrollbar_policy priv = ST_POLICY_AUTOMATIC ->
    hscrollbar_policy priv <> ST_POLICY_AUTOMATIC ->
    exists priv' log,
      st_scroll_view_allocate scene box priv = Returns tt priv' log
      /\ hscrollbar_visible priv'
         = policy_eqb (hscrollbar_policy priv) ST_POLICY_ALWAYS
      /\ vscrollbar_visible priv'
         = fgt (fst (actor_preferred_height scene ch (avail_width scene box)))
             (fsub (avail_height scene box)
                (if hscrollbar_visible priv'
                 then snd (scrollbar_thickness scene priv) else px 0)).
Proof.
  intros scene box priv ch Hchild Hv Hh.
  do 2 eexists. split.
  - apply allocate_returns.
    exact (determine_visibility_fixed_horizontal scene _ _ _ _ priv Hchild Hv Hh).
  - split; reflexivity.
Qed.

Lemma allocate_fixed_horizontal_witness :
  exists priv' log,
    st_scroll_view_allocate Example.tall_scene
      (mkBox (px 0) (px 0) (px 300) (px 200))
      (Example.view_with_policy ST_POLICY_NEVER ST_POLICY_AUTOMATIC)
    = Returns tt priv' log
    /\ hscrollbar_visible priv' = false
    /\ vscrollbar_visible priv' = true.
Proof.
  assert (Hh : hscrollbar_policy
                 (Example.view_with_policy ST_POLICY_NEVER ST_POLICY_AUTOMATIC)
               <> ST_POLICY_AUTOMATIC) by discriminate.
  destruct (allocate_fixed_horizontal Example.tall_scene
              (mkBox (px 0) (px 0) (px 300) (px 200))
              (Example.view_with_policy ST_POLICY_NEVER ST_POLICY_AUTOMATIC)
              (ch := Example.child_actor) eq_refl eq_refl Hh)
    as (priv' & log & Hrun & Hhv & Hvv).
  exists priv', log. split; [exact Hrun|]. split.
  - rewrite Hhv. reflexivity.
  - rewrite Hvv, Hhv. reflexivity.
Defined.

(** With a child and both policies AUTOMATIC, a child whose minimum width
    does not exceed the available width and whose minimum height (at the
    full available width) does not exceed the available height gets no
    scrollbar, whatever the scrollbars' thickness, and its height is
    measured once only. Available width and height are the ones the code
    compares with: the rounded extents of the content box. *)
Theorem allocate_fitting_child_needs_no_scrollbar :
  forall (scene : Scene) (box : ClutterActorBox) (priv : StScrollViewPrivate)
         (ch : ActorId),
    child priv = Some ch ->
    hscrollbar_policy priv = ST_POLICY_AUTOMATIC ->
    vscrollbar_policy priv = ST_POLICY_AUTOMATIC ->
    fgt (fst (actor_preferred_width scene ch (px (-1)))) (avail_width scene box)
    = false ->
    fgt (fst (actor_preferred_height scene ch (avail_width scene box)))
      (avail_height scene box)
    = false ->
    exists priv' log,
      st_scroll_view_allocate scene box priv = Returns tt priv' log
      /\ hscrollbar_visible priv' = false
      /\ vscrollbar_visible priv' = false
      /\ size_queries log
         = scrollbar_thickness_log scene priv
           ++ [GetPreferredWidth ch (px (-1));
               GetPreferredHeight ch (avail_width scene box)].
Proof.
  intros scene box priv ch Hchild Hh Hv Hwidth Hheight.
  pose proof (allocate_both_automatic_returns scene box priv Hchild Hh Hv)
    as Hrun.
  cbv zeta in Hrun.
  assert (Hprobe :
    described_two_pass (fun w => fst (actor_preferred_height scene ch w))
      (fst (actor_preferred_width scene ch (px (-1))))
      (avail_width scene box) (avail_height scene box)
      (fst (scrollbar_thickness scene priv))
      (snd (scrollbar_thickness scene priv))
    = mkTwoPass false false false [avail_width scene box]).
  { unfold described_two_pass.
    rewrite Hheight, fsub_zero, Hwidth, fsub_zero, Hheight.
    reflexivity. }
  rewrite Hprobe in Hrun. cbn [two_pass_hvisible two_pass_vvisible] in Hrun.
  do 2 eexists. split; [exact Hrun|].
  split; [reflexivity|]. split; [reflexivity|].
  destruct (queries_only_projections _
              (scrollbar_thickness_log_queries_only scene priv))
    as (_ & _ & _ & _ & Hsq).
  destruct (described_allocations_projections scene priv box false false)
    as (_ & _ & Haq).
  destruct (notify_log_projections (hscrollbar_visible priv) false
              PROP_HSCROLLBAR_VISIBLE) as (_ & _ & _ & Hhq).
  destruct (notify_log_projections (vscrollbar_visible priv) false
              PROP_VSCROLLBAR_VISIBLE) as (_ & _ & _ & Hvq).
  change (SetAllocation box :: ?l) with ([SetAllocation box] ++ l).
  rewrite !size_queries_app, Hsq, Haq, Hhq, Hvq, !app_nil_r.
  reflexivity.
Qed.

Lemma allocate_fitting_child_needs_no_scrollbar_witness :
  exists priv' log,
    st_scroll_view_allocate (Example.plain_scene CLUTTER_TEXT_DIRECTION_LTR)
      (mkBox (px 0) (px 0) (px 300) (px 200)) Example.view_with_child
    = Returns tt priv' log
    /\ hscrollbar_visible priv' = false
    /\ vscrollbar_visible priv' = false.
Proof.
  destruct (@allocate_fitting_child_needs_no_scrollbar
              (Example.plain_scene CLUTTER_TEXT_DIRECTION_LTR)
              (mkBox (px 0) (px 0) (px 300) (px 200)) Example.view_with_child
              Example.child_actor eq_refl eq_refl eq_refl eq_refl eq_refl)
    as (priv' & log & Hrun & Hhv & Hvv & _).
  exists priv', log. repeat split; assumption.
Defined.

Lemma with_flags_hvisible (h v : bool) (p : StScrollViewPrivate) :
  hscrollbar_visible (with_flags h v p) = h.
Proof. reflexivity. Qed.

Lemma with_flags_vvisible (h v : bool) (p : StScrollViewPrivate) :
  vscrollbar_visible (with_flags h v p) = v.
Proof. reflexivity. Qed.





(** Without a child, or with a vertical policy that is not AUTOMATIC, the
    decision asks for no height. *)
Lemma determine_visibility_without_height
  (scene : Scene) (aw ah sbw sbh : gfloat) (priv : StScrollViewPrivate) :
  vscrollbar_policy priv <> ST_POLICY_AUTOMATIC \/ child priv = None ->
  exists h v,
    determine_visibility scene aw ah sbw sbh priv
    = Returns (h, v) priv
        match child priv with
        | Some ch => [GetPreferredWidth ch (px (-1))]
        | None => []
        end.
Proof.
  destruct priv as [c ha hs va vs hp vp rs cs rss css ms ov hv0 vv0].
  simpl. intros [Hv|Hc].
  - destruct c, hp, vp; try contradiction; run_determine_visibility;
      do 2 eexists; reflexivity.
  - subst c. destruct hp, vp; run_determine_visibility;
      do 2 eexists; reflexivity.
Qed.

(** [allocate] asks the child for its preferred height only when there is a
    child and the vertical policy is AUTOMATIC: in every other state its
    size queries are those that size the scrollbars and, if there is a
    child, the one for the child's preferred width. *)
Theorem allocate_measures_height_only_for_automatic :
  forall (scene : Scene) (box : ClutterActorBox) (priv : StScrollViewPrivate),
    vscrollbar_policy priv <> ST_POLICY_AUTOMATIC \/ child priv = None ->
    exists priv' log,
      st_scroll_view_allocate scene box priv = Returns tt priv' log
      /\ size_queries log
         = scrollbar_thickness_log scene priv
           ++ match child priv with
              | Some ch => [GetPreferredWidth ch (px (-1))]
              | None => []
              end.
Proof.
  intros scene box priv Hcase.
  destruct (determine_visibility_without_height scene
              (avail_width scene box) (avail_height scene box)
              (fst (scrollbar_thickness scene priv))
              (snd (scrollbar_thickness scene priv)) priv Hcase)
    as (h & v & Hrun).
  do 2 eexists. split; [exact (allocate_returns _ _ Hrun)|].
  destruct (queries_only_projections _
              (scrollbar_thickness_log_queries_only scene priv))
    as (_ & _ & _ & _ & Hsq).
  destruct (described_allocations_projections scene priv box h v)
    as (_ & _ & Haq).
  destruct (notify_log_projections (hscrollbar_visible priv) h
              PROP_HSCROLLBAR_VISIBLE) as (_ & _ & _ & Hhq).
  destruct (notify_log_projections (vscrollbar_visible priv) v
              PROP_VSCROLLBAR_VISIBLE) as (_ & _ & _ & Hvq).
  change (SetAllocation box :: ?l) with ([SetAllocation box] ++ l).
  rewrite !size_queries_app, Hsq, Haq, Hhq, Hvq, !app_nil_r.
  destruct (child priv); reflexivity.
Qed.

Lemma allocate_measures_height_only_for_automatic_witness :
  exists priv' log,
    st_scroll_view_allocate Example.tall_scene (mkBox (px 0) (px 0) (px 300) (px 200))
      (Example.view_with_policy ST_POLICY_AUTOMATIC ST_POLICY_NEVER)
    = Returns tt priv' log
    /\ height_queries Example.child_actor log = [].
Proof.
  assert (Hv : vscrollbar_policy
                 (Example.view_with_policy ST_POLICY_AUTOMATIC ST_POLICY_NEVER)
               <> ST_POLICY_AUTOMATIC
               \/ child (Example.view_with_policy ST_POLICY_AUTOMATIC
                           ST_POLICY_NEVER) = None)
    by (left; discriminate).
  destruct (@allocate_measures_height_only_for_automatic Example.tall_scene
              (mkBox (px 0) (px 0) (px 300) (px 200))
              (Example.view_with_policy ST_POLICY_AUTOMATIC ST_POLICY_NEVER) Hv)
    as (priv' & log & Hrun & _).
  exists priv', log. split; [exact Hrun|].
  vm_compute in Hrun. injection Hrun as _ <-. reflexivity.
Defined.

(** ** The boxes one allocation hands out *)

Lemma described_allocations_boxes
  (scene : Scene) (priv : StScrollViewPrivate) (box : ClutterActorBox)
  (h v : bool) :
  let cb := theme_content_box scene box in
  let sbw := fst (scrollbar_thickness scene priv) in
  let sbh := snd (scrollbar_thickness scene priv) in
  allocations (described_allocations scene priv box h v)
  = (vscroll priv, described_vscroll_box scene cb sbw sbh h)
    :: (hscroll priv, described_hscroll_box scene cb sbw sbh v)
    :: match child priv with
       | Some ch => [(Some ch, described_child_box scene priv cb sbw sbh)]
       | None => []
       end.
Proof.
  unfold described_allocations.
  destruct (scrollbar_thickness scene priv), (child priv); reflexivity.
Qed.

(** The allocations of a call are those of [described_allocations] for the
    flags the call stores. *)
Lemma allocate_allocations
  (scene : Scene) (box : ClutterActorBox) (priv : StScrollViewPrivate) :
  exists h v log,
    st_scroll_view_allocate scene box priv = Returns tt (with_flags h v priv) log
    /\ allocations log = allocations (described_allocations scene priv box h v).
Proof.
  destruct (determine_visibility_queries_only scene
              (avail_width scene box) (avail_height scene box)
              (fst (scrollbar_thickness scene priv))
              (snd (scrollbar_thickness scene priv)) priv)
    as (h & v & l & Hrun & Hl).
  exists h, v. eexists. split; [exact (allocate_returns _ _ Hrun)|].
  destruct (queries_only_projections _ Hl) as (_ & Ha & _).
  destruct (queries_only_projections _
              (scrollbar_thickness_log_queries_only scene priv))
    as (_ & Hsa & _).
  cbn [allocations].
  rewrite !allocations_app, !notify_log_allocations, Ha, Hsa, !app_nil_r.
  reflexivity.
Qed.

(** Both scrollbar actors get a box in every [allocate] call, visible or
    not, before the child gets one. The vertical scrollbar's box starts at
    the top of the content box and lies against its trailing edge (its
    leading edge under right-to-left); its inner edge is that edge less
    (plus, under right-to-left) the scrollbar's thickness, rounded to a
    float. The horizontal one's ends at the bottom of the content box and
    begins at the bottom less the scrollbar's thickness, rounded. When both
    scrollbars are visible the two boxes meet at the corner without
    overlapping: the vertical one ends where the horizontal one begins, and
    the horizontal one stops at the vertical one's inner edge. A scrollbar
    whose partner is hidden spans the whole content box along its axis. *)
Theorem allocate_scrollbar_boxes :
  forall (scene : Scene) (box : ClutterActorBox) (priv : StScrollViewPrivate),
  let cb := theme_content_box scene box in
  let sbw := fst (scrollbar_thickness scene priv) in
  let sbh := snd (scrollbar_thickness scene priv) in
  exists priv' log vbox hbox rest,
    st_scroll_view_allocate scene box priv = Returns tt priv' log
    /\ allocations log = (vscroll priv, vbox) :: (hscroll priv, hbox) :: rest
    /\ y1 vbox = y1 cb
    /\ y2 hbox = y2 cb
    /\ y1 hbox = fsub (y2 cb) sbh
    /\ (if is_rtl (text_direction scene)
        then x1 vbox = x1 cb /\ x2 vbox = fadd (x1 cb) sbw /\ x2 hbox = x2 cb
        else x2 vbox = x2 cb /\ x1 vbox = fsub (x2 cb) sbw /\ x1 hbox = x1 cb)
    /\ (hscrollbar_visible priv' = true -> y2 vbox = y1 hbox)
    /\ (hscrollbar_visible priv' = false -> y2 vbox = y2 cb)
    /\ (vscrollbar_visible priv' = true ->
        if is_rtl (text_direction scene)
        then x1 hbox = x2 vbox else x2 hbox = x1 vbox)
    /\ (vscrollbar_visible priv' = false ->
        same_value (x1 hbox) (x1 cb) /\ x2 hbox = x2 cb).
Proof.
  intros scene box priv cb sbw sbh.
  destruct (allocate_allocations scene box priv) as (h & v & log & Hrun & Hlog).
  rewrite described_allocations_boxes in Hlog. cbv zeta in Hlog.
  fold cb sbw sbh in Hlog.
  do 5 eexists. split; [exact Hrun|]. split; [exact Hlog|].
  rewrite with_flags_hvisible, with_flags_vvisible.
  unfold described_vscroll_box, described_hscroll_box.
  destruct (is_rtl (text_direction scene)), h, v;
    cbn [x1 x2 y1 y2]; repeat split; intros; try discriminate;
    try reflexivity; try apply fsub_zero; try apply fadd_zero;
    apply same_value_refl.
Qed.

(** With a child present, the child's box starts at the top of the content
    box and at its leading edge. Where space is reserved (policy ALWAYS or
    AUTOMATIC, scrollbars not overlaid) the child's box ends exactly where
    the scrollbar's box begins, whether or not that scrollbar is visible;
    where it is not reserved the child's box runs to the far edge of the
    content box. (Every edge is the very float named, except that the far
    edge under right-to-left comes out of an addition of 0, which turns a
    content edge of -0 into +0.) *)
Theorem allocate_child_box :
  forall (scene : Scene) (box : ClutterActorBox) (priv : StScrollViewPrivate)
         (ch : ActorId),
    child priv = Some ch ->
    let cb := theme_content_box scene box in
    exists priv' log vbox hbox cbox,
      st_scroll_view_allocate scene box priv = Returns tt priv' log
      /\ allocations log
         = [(vscroll priv, vbox); (hscroll priv, hbox); (Some ch, cbox)]
      /\ y1 cbox = y1 cb
      /\ (if is_rtl (text_direction scene)
          then x2 cbox = x2 cb else x1 cbox = x1 cb)
      /\ (if reserves_space (vscrollbar_policy priv) (overlay_scrollbars priv)
          then if is_rtl (text_direction scene)
               then x1 cbox = x2 vbox else x2 cbox = x1 vbox
          else if is_rtl (text_direction scene)
               then same_value (x1 cbox) (x1 cb) else x2 cbox = x2 cb)
      /\ (if reserves_space (hscrollbar_policy priv) (overlay_scrollbars priv)
          then y2 cbox = y1 hbox
          else y2 cbox = y2 cb).
Proof.
  intros scene box priv ch Hchild cb.
  destruct (allocate_allocations scene box priv) as (h & v & log & Hrun & Hlog).
  rewrite described_allocations_boxes in Hlog. cbv zeta in Hlog. fold cb in Hlog.
  rewrite Hchild in Hlog.
  do 5 eexists. split; [exact Hrun|]. split; [exact Hlog|].
  unfold described_vscroll_box, described_hscroll_box, described_child_box.
  destruct (is_rtl (text_direction scene)),
    (reserves_space (vscrollbar_policy priv) (overlay_scrollbars priv)),
    (reserves_space (hscrollbar_policy priv) (overlay_scrollbars priv));
    cbn [x1 x2 y1 y2]; repeat split;
    try reflexivity; try apply fsub_zero; apply fadd_zero.
Qed.

Lemma allocate_child_box_witness :
  exists priv' log vbox hbox cbox,
    st_scroll_view_allocate Example.scenario_scene
      (mkBox (px 0) (px 0) (px 300) (px 200))
      Example.view_with_child = Returns tt priv' log
    /\ allocations log
       = [(Some Example.vscroll_actor, vbox); (Some Example.hscroll_actor, hbox);
          (Some Example.child_actor, cbox)]
    /\ x2 cbox = x1 vbox
    /\ y2 cbox = y1 hbox.
Proof.
  destruct (allocate_child_box Example.scenario_scene
              (mkBox (px 0) (px 0) (px 300) (px 200))
              Example.view_with_child (ch := Example.child_actor) eq_refl)
    as (priv' & log & vbox & hbox & cbox & Hrun & Hlog & _ & _ & Hx & Hy).
  exists priv', log, vbox, hbox, cbox.
  split; [exact Hrun|]. split; [exact Hlog|]. split; [exact Hx | exact Hy].
Defined.

(** The same allocation under right-to-left and under left-to-right: the
    same flags are stored, the same actors get a box in the same order, and
    each actor's box has the same top and bottom edge in both. The text
    direction moves horizontal edges only. *)
Theorem allocate_text_direction_keeps_flags_and_rows :
  forall (scene : Scene) (box : ClutterActorBox) (priv : StScrollViewPrivate),
  exists priv' log_ltr log_rtl,
    st_scroll_view_allocate
      (with_text_direction CLUTTER_TEXT_DIRECTION_LTR scene) box priv
    = Returns tt priv' log_ltr
    /\ st_scroll_view_allocate
         (with_text_direction CLUTTER_TEXT_DIRECTION_RTL scene) box priv
       = Returns tt priv' log_rtl
    /\ Forall2
         (fun rtl ltr => fst rtl = fst ltr /\ same_rows (snd rtl) (snd ltr))
         (allocations log_rtl) (allocations log_ltr).
Proof.
  intros scene box priv.
  destruct (determine_visibility_queries_only scene
              (avail_width scene box) (avail_height scene box)
              (fst (scrollbar_thickness scene priv))
              (snd (scrollbar_thickness scene priv)) priv)
    as (h & v & l & Hrun & Hl).
  destruct (queries_only_projections _ Hl) as (_ & Ha & _).
  pose proof (@allocate_returns
                (with_text_direction CLUTTER_TEXT_DIRECTION_LTR scene)
                box priv h v l Hrun) as Hltr.
  pose proof (@allocate_returns
                (with_text_direction CLUTTER_TEXT_DIRECTION_RTL scene)
                box priv h v l Hrun) as Hrtl.
  do 3 eexists. split; [exact Hltr|]. split; [exact Hrtl|].
  cbn [allocations].
  rewrite !allocations_app, !notify_log_allocations, Ha, !app_nil_r.
  destruct (queries_only_projections _
              (scrollbar_thickness_log_queries_only
                 (with_text_direction CLUTTER_TEXT_DIRECTION_LTR scene) priv))
    as (_ & -> & _).
  destruct (queries_only_projections _
              (scrollbar_thickness_log_queries_only
                 (with_text_direction CLUTTER_TEXT_DIRECTION_RTL scene) priv))
    as (_ & -> & _).
  rewrite !described_allocations_boxes.
  unfold described_vscroll_box, described_hscroll_box, described_child_box.
  change (scrollbar_thickness (with_text_direction _ scene) priv)
    with (scrollbar_thickness scene priv).
  cbn [with_text_direction text_direction is_rtl theme_content_box].
  destruct (child priv); repeat constructor.
Qed.

(** ** Scroll events, whatever the event *)

(** The scroll handler never aborts (the unreachable arm of
    [adjust_with_direction] is never taken), never changes the private data,
    and reports the event handled exactly when mouse scrolling is enabled,
    whatever the event, emulated or not; it makes at most two calls, all of
    them scroll adjustments. *)
Theorem scroll_event_result_is_mouse_scroll :
  forall (scene : Scene) (priv : StScrollViewPrivate) (event : ClutterEvent),
  exists log,
    st_scroll_view_scroll_event scene event priv
    = Returns (mouse_scroll priv) priv log
    /\ (length log <= 2)%nat
    /\ map (fun d => AdjustForScrollEvent (fst d) (snd d)) (scroll_deltas log)
       = log.
Proof.
  intros scene priv [emulated direction [dx dy]].
  unfold st_scroll_view_scroll_event, bind at 1, get_priv.
  destruct (mouse_scroll priv) eqn:Hmouse;
    [|eexists; split; [reflexivity | split; [simpl; lia | reflexivity]]].
  destruct emulated;
    [eexists; split; [reflexivity | split; [simpl; lia | reflexivity]]|].
  destruct direction, (is_rtl (text_direction scene));
    cbv [bind ret emit st_adjustment_adjust_for_scroll_event
         adjust_with_direction pointer_emulated scroll_direction scroll_delta
         negb app fst snd];
    eexists; (split; [reflexivity | split; [simpl; lia | reflexivity]]).
Qed.

(** ** The setters *)

(** [st_scroll_view_set_policy] with a pair that differs from the stored one
    stores both policies and touches no other field; inside one freeze and
    thaw pair it notifies exactly the policies that changed, horizontal
    first, and it requests exactly one relayout. *)
Theorem set_policy_notifies_changed_policies :
  forall (priv : StScrollViewPrivate) (h v : StPolicyType),
    hscrollbar_policy priv <> h \/ vscrollbar_policy priv <> v ->
    st_scroll_view_set_policy h v priv
    = Returns tt
        (with_vscrollbar_policy v (with_hscrollbar_policy h priv))
        ([FreezeNotify]
         ++ (if policy_eqb (hscrollbar_policy priv) h
             then [] else [NotifyByPspec PROP_HSCROLLBAR_POLICY])
         ++ (if policy_eqb (vscrollbar_policy priv) v
             then [] else [NotifyByPspec PROP_VSCROLLBAR_POLICY])
         ++ [QueueRelayout; ThawNotify]).
Proof.
  intros priv h v Hdiff.
  destruct priv as [c ha hs va vs hp vp rs cs rss css ms ov hv0 vv0].
  simpl in Hdiff.
  destruct hp, h, vp, v; try reflexivity; destruct Hdiff; contradiction.
Qed.

Lemma set_policy_notifies_changed_policies_witness :
  st_scroll_view_set_policy ST_POLICY_NEVER ST_POLICY_AUTOMATIC
    Example.fresh_view
  = Returns tt
      (with_vscrollbar_policy ST_POLICY_AUTOMATIC
         (with_hscrollbar_policy ST_POLICY_NEVER Example.fresh_view))
      [FreezeNotify; NotifyByPspec PROP_HSCROLLBAR_POLICY; QueueRelayout;
       ThawNotify].
Proof.
  apply (@set_policy_notifies_changed_policies Example.fresh_view
           ST_POLICY_NEVER ST_POLICY_AUTOMATIC).
  left. discriminate.
Defined.

(** The two boolean setters, called with [TRUE] (1) or [FALSE] (0): each
    stores its argument and touches no other field, so the matching getter
    then returns it; each notifies its property exactly when the value
    changes and does nothing at all when it does not. Enabling mouse
    scrolling makes the view reactive, disabling it never makes it
    unreactive; changing the overlay setting requests exactly one relayout.
    Called with any other integer, which a [gboolean] can hold, each setter
    acts whatever is stored: it stores the integer's lowest bit and
    notifies, even when the stored bit stays as it was. *)
Theorem boolean_setters_act_on_change_only :
  forall (priv : StScrollViewPrivate),
    (forall enabled : bool,
        (st_scroll_view_set_mouse_scrolling (Z.b2z enabled) priv
         = Returns tt (with_mouse_scroll enabled priv)
             (if Bool.eqb (mouse_scroll priv) enabled then []
              else (if enabled then [SetReactive true] else [])
                   ++ [NotifyByPspec PROP_MOUSE_SCROLL])
         /\ st_scroll_view_get_mouse_scrolling (with_mouse_scroll enabled priv)
            = Returns enabled (with_mouse_scroll enabled priv) []
         /\ (mouse_scroll priv = enabled -> with_mouse_scroll enabled priv = priv))
        /\ (st_scroll_view_set_overlay_scrollbars (Z.b2z enabled) priv
            = Returns tt (with_overlay_scrollbars enabled priv)
                (if Bool.eqb (overlay_scrollbars priv) enabled then []
                 else [NotifyByPspec PROP_OVERLAY_SCROLLBARS; QueueRelayout])
            /\ st_scroll_view_get_overlay_scrollbars
                 (with_overlay_scrollbars enabled priv)
               = Returns enabled (with_overlay_scrollbars enabled priv) []
            /\ (overlay_scrollbars priv = enabled ->
                with_overlay_scrollbars enabled priv = priv)))
    /\ (forall enabled : Z,
           enabled <> 0%Z -> enabled <> 1%Z ->
           st_scroll_view_set_mouse_scrolling enabled priv
           = Returns tt (with_mouse_scroll (Z.odd enabled) priv)
               [SetReactive true; NotifyByPspec PROP_MOUSE_SCROLL]
           /\ st_scroll_view_set_overlay_scrollbars enabled priv
              = Returns tt (with_overlay_scrollbars (Z.odd enabled) priv)
                  [NotifyByPspec PROP_OVERLAY_SCROLLBARS; QueueRelayout]).
Proof.
  intros priv. split.
  - intro enabled.
    destruct priv as [c ha hs va vs hp vp rs cs rss css ms ov hv0 vv0].
    split; (split; [|split; [reflexivity | simpl; intros ->; reflexivity]]).
    + destruct ms, enabled; reflexivity.
    + destruct ov, enabled; reflexivity.
  - intros enabled H0 H1.
    assert (Hm : Z.eqb (Z.b2z (mouse_scroll priv)) enabled = false)
      by (apply Z.eqb_neq; destruct (mouse_scroll priv); simpl; congruence).
    assert (Ho : Z.eqb (Z.b2z (overlay_scrollbars priv)) enabled = false)
      by (apply Z.eqb_neq; destruct (overlay_scrollbars priv); simpl; congruence).
    assert (Hz : Z.eqb enabled 0 = false) by (apply Z.eqb_neq; assumption).
    split.
    + unfold st_scroll_view_set_mouse_scrolling, bind at 1, get_priv.
      rewrite Hm, Hz. reflexivity.
    + unfold st_scroll_view_set_overlay_scrollbars, bind at 1, get_priv.
      rewrite Ho. reflexivity.
Qed.

(** For instance the integer 2, on a view that has mouse scrolling enabled
    and scrollbars not overlaid: mouse scrolling is switched off although 2
    is true in C, and the overlay property is notified although the stored
    value does not change. *)
Example boolean_setters_given_two :
  st_scroll_view_set_mouse_scrolling 2 Example.fresh_view
  = Returns tt (with_mouse_scroll false Example.fresh_view)
      [SetReactive true; NotifyByPspec PROP_MOUSE_SCROLL]
  /\ st_scroll_view_set_overlay_scrollbars 2 Example.fresh_view
     = Returns tt Example.fresh_view
         [NotifyByPspec PROP_OVERLAY_SCROLLBARS; QueueRelayout].
Proof. split; reflexivity. Qed.

(** A size that is not negative goes to the adjustment: after
    [st_scroll_view_set_column_size x] the column getter returns [x] and the
    override is marked set, while the row getter returns what it returned
    before; and the same with rows and columns exchanged. *)
Theorem set_size_round_trip :
  forall (priv : StScrollViewPrivate) (size : Q),
    0 <= size ->
    (exists priv',
        st_scroll_view_set_column_size size priv = Returns tt priv' []
        /\ st_scroll_view_get_column_size priv' = Returns size priv' []
        /\ column_size_set priv' = true
        /\ column_size priv' = size
        /\ st_scroll_view_get_row_size priv'
           = Returns (step_increment (vadjustment priv)) priv' [])
    /\ (exists priv',
        st_scroll_view_set_row_size size priv = Returns tt priv' []
        /\ st_scroll_view_get_row_size priv' = Returns size priv' []
        /\ row_size_set priv' = true
        /\ row_size priv' = size
        /\ st_scroll_view_get_column_size priv'
           = Returns (step_increment (hadjustment priv)) priv' []).
Proof.
  intros priv size Hsize.
  unfold st_scroll_view_set_column_size, st_scroll_view_set_row_size.
  destruct (Qltb_spec size 0) as [Hneg|_]; [lra|].
  split; eexists; (split; [reflexivity|]); repeat split.
Qed.

Lemma set_size_round_trip_witness :
  exists priv',
    st_scroll_view_set_column_size 5 Example.fresh_view = Returns tt priv' []
    /\ st_scroll_view_get_column_size priv' = Returns 5 priv' [].
Proof.
  assert (H : 0 <= 5) by discriminate.
  destruct (@set_size_round_trip Example.fresh_view 5 H)
    as [(priv' & Hset & Hget & _) _].
  exists priv'. split; assumption.
Defined.

(** ** Adding and removing actors *)

(** An actor that is not scrollable is refused: the private data is left as
    it was, nothing is chained up or attached, and a warning is the only
    effect. *)
Theorem add_refuses_non_scrollable :
  forall (scene : Scene) (priv : StScrollViewPrivate) (actor : ActorId),
    actor_is_scrollable scene actor = false ->
    st_scroll_view_add scene actor priv = Returns tt priv [Warning].
Proof.
  intros scene priv actor H. unfold st_scroll_view_add. rewrite H. reflexivity.
Qed.

Lemma add_refuses_non_scrollable_witness :
  st_scroll_view_add
    (with_scrollable (fun _ => false)
       (Example.plain_scene CLUTTER_TEXT_DIRECTION_LTR))
    Example.child_actor Example.fresh_view
  = Returns tt Example.fresh_view [Warning].
Proof.
  apply add_refuses_non_scrollable. reflexivity.
Defined.

(** Adding a scrollable actor to a view without child and then removing it
    is a round trip on the private data: the actor is tracked in between,
    gets both adjustments on the way in and loses them on the way out, and
    the scrollbars are not touched. *)
Theorem add_then_remove_round_trip :
  forall (scene : Scene) (priv : StScrollViewPrivate) (actor : ActorId),
    child priv = None ->
    actor_is_scrollable scene actor = true ->
    (exists priv1,
        st_scroll_view_add scene actor priv
        = Returns tt priv1 [ParentAdd actor; SetAdjustments actor true]
        /\ child priv1 = Some actor
        /\ st_scroll_view_remove actor priv1
           = Returns tt priv [ParentRemove actor; SetAdjustments actor false]).
Proof.
  intros scene priv actor Hchild Hscrollable.
  exists (with_child (Some actor) priv).
  unfold st_scroll_view_add. rewrite Hscrollable.
  split; [reflexivity|]. split; [reflexivity|].
  unfold st_scroll_view_remove, bind at 1, get_priv.
  destruct (actor_eqb_spec actor (child (with_child (Some actor) priv)))
    as [_|Hne]; [|exfalso; apply Hne; reflexivity].
  destruct priv as [c ha hs va vs hp vp rs cs rss css ms ov hv0 vv0].
  simpl in Hchild. subst c. reflexivity.
Qed.

Lemma add_then_remove_round_trip_witness :
  exists priv1,
    st_scroll_view_add (Example.plain_scene CLUTTER_TEXT_DIRECTION_LTR)
      Example.child_actor Example.fresh_view
    = Returns tt priv1
        [ParentAdd Example.child_actor; SetAdjustments Example.child_actor true]
    /\ child priv1 = Some Example.child_actor
    /\ st_scroll_view_remove Example.child_actor priv1
       = Returns tt Example.fresh_view
           [ParentRemove Example.child_actor;
            SetAdjustments Example.child_actor false].
Proof.
  exact (@add_then_remove_round_trip
           (Example.plain_scene CLUTTER_TEXT_DIRECTION_LTR)
           Example.fresh_view Example.child_actor eq_refl eq_refl).
Defined.

(** After the tracked child is removed the view behaves as one without
    child: preferred-size queries write nothing, and [allocate] hands boxes
    to the two scrollbars only. *)
Theorem remove_child_then_layout :
  forall (priv : StScrollViewPrivate) (ch : ActorId),
    child priv = Some ch ->
    exists priv1,
      st_scroll_view_remove ch priv
      = Returns tt priv1 [ParentRemove ch; SetAdjustments ch false]
      /\ child priv1 = None
      /\ (forall scene for_size min_p natural_p,
             st_scroll_view_get_preferred_width scene for_size min_p natural_p
               priv1 = Returns (min_p, natural_p) priv1 []
             /\ st_scroll_view_get_preferred_height scene for_size min_p
                  natural_p priv1 = Returns (min_p, natural_p) priv1 [])
      /\ (forall scene box,
             exists priv2 log,
               st_scroll_view_allocate scene box priv1 = Returns tt priv2 log
               /\ map fst (allocations log) = [vscroll priv; hscroll priv]).
Proof.
  intros priv ch Hchild.
  exists (with_child None priv).
  split; [|split; [reflexivity|split]].
  - unfold st_scroll_view_remove, bind at 1, get_priv.
    destruct (actor_eqb_spec ch (child priv)) as [_|Hne];
      [reflexivity | contradiction].
  - intros scene for_size min_p natural_p. split; reflexivity.
  - intros scene box.
    destruct (allocate_allocations scene box (with_child None priv))
      as (h & v & log & Hrun & Hlog).
    rewrite described_allocations_boxes in Hlog.
    do 2 eexists. split; [exact Hrun|]. rewrite Hlog. reflexivity.
Qed.

Lemma remove_child_then_layout_witness :
  exists priv1,
    st_scroll_view_remove Example.child_actor Example.view_with_child
    = Returns tt priv1
        [ParentRemove Example.child_actor;
         SetAdjustments Example.child_actor false]
    /\ child priv1 = None.
Proof.
  destruct (@remove_child_then_layout Example.view_with_child
              Example.child_actor eq_refl) as (priv1 & Hrun & Hchild & _).
  exists priv1. split; assumption.
Defined.

(** Removing the vertical scrollbar actor forgets it: the scrollbar getter
    answers [NULL] from then on, and the next [allocate] finds no thickness
    to reserve, so the child's box spans the whole width of the content
    box while the forgotten scrollbar's box has no width: its two vertical
    edges are one value. *)
Theorem remove_vscroll_then_allocate :
  forall (scene : Scene) (box : ClutterActorBox) (priv : StScrollViewPrivate)
         (bar ch : ActorId),
    vscroll priv = Some bar ->
    child priv = Some ch ->
    ch <> bar ->
    let cb := theme_content_box scene box in
    exists priv1,
      st_scroll_view_remove bar priv = Returns tt priv1 [RemoveChild bar]
      /\ st_scroll_view_get_vscroll_bar priv1 = Returns None priv1 []
      /\ exists priv2 log vbox hbox cbox,
          st_scroll_view_allocate scene box priv1 = Returns tt priv2 log
          /\ allocations log
             = [(None, vbox); (hscroll priv, hbox); (Some ch, cbox)]
          /\ same_value (x2 vbox) (x1 vbox)
          /\ same_value (x1 cbox) (x1 cb)
          /\ x2 cbox = x2 cb.
Proof.
  intros scene box priv bar ch Hbar Hchild Hne cb.
  exists (with_vscroll None priv).
  split; [|split; [reflexivity|]].
  - unfold st_scroll_view_remove, bind at 1, get_priv.
    destruct (actor_eqb_spec bar (child priv)) as [Heq|_];
      [congruence|].
    unfold bind at 1.
    destruct (actor_eqb_spec bar (vscroll priv)) as [_|Hno];
      [reflexivity | contradiction].
  - destruct (allocate_allocations scene box (with_vscroll None priv))
      as (h & v & log & Hrun & Hlog).
    rewrite described_allocations_boxes in Hlog. cbv zeta in Hlog.
    fold cb in Hlog.
    change (child (with_vscroll None priv)) with (child priv) in Hlog.
    rewrite Hchild in Hlog.
    do 5 eexists. split; [exact Hrun|]. split; [exact Hlog|].
    unfold described_vscroll_box, described_child_box, scrollbar_thickness.
    cbn [vscroll with_vscroll scrollbar_width].
    destruct (request_mode scene), (is_rtl (text_direction scene)),
      (reserves_space (vscrollbar_policy (with_vscroll None priv))
         (overlay_scrollbars (with_vscroll None priv)));
      cbn [fst snd x1 x2 y1 y2]; rewrite ?fsub_zero; repeat split;
      try apply fadd_zero; apply same_value_refl.
Qed.

Lemma remove_vscroll_then_allocate_witness :
  exists priv1,
    st_scroll_view_remove Example.vscroll_actor Example.view_with_child
    = Returns tt priv1 [RemoveChild Example.vscroll_actor]
    /\ st_scroll_view_get_vscroll_bar priv1 = Returns None priv1 [].
Proof.
  assert (Hne : Example.child_actor <> Example.vscroll_actor) by discriminate.
  destruct (@remove_vscroll_then_allocate
              (Example.plain_scene CLUTTER_TEXT_DIRECTION_LTR)
              (mkBox (px 0) (px 0) (px 300) (px 200)) Example.view_with_child
              Example.vscroll_actor Example.child_actor eq_refl eq_refl Hne)
    as (priv1 & Hrun & Hget & _).
  exists priv1. split; assumption.
Defined.

(** ** Painting and picking after an allocation *)

(** After any [allocate], painting and picking follow the policies: under
    NEVER or EXTERNAL on both axes they draw the background (resp. the
    parent's pick) and the child, if there is one, and no scrollbar, although
    both scrollbars were given boxes; under ALWAYS on both axes they draw
    both scrollbars after the child, horizontal first. *)
Theorem paint_after_allocate_follows_policy :
  forall (scene : Scene) (box : ClutterActorBox) (priv : StScrollViewPrivate),
  exists priv' log,
    st_scroll_view_allocate scene box priv = Returns tt priv' log
    /\ map fst (allocations log)
       = vscroll priv :: hscroll priv
         :: (if non_null (child priv) then [child priv] else [])
    /\ (hscrollbar_policy priv = ST_POLICY_NEVER
        \/ hscrollbar_policy priv = ST_POLICY_EXTERNAL ->
        vscrollbar_policy priv = ST_POLICY_NEVER
        \/ vscrollbar_policy priv = ST_POLICY_EXTERNAL ->
        st_scroll_view_paint priv'
        = PaintBackground
          :: (if non_null (child priv) then [PaintActor (child priv)] else [])
        /\ st_scroll_view_pick priv'
           = PickParent
             :: (if non_null (child priv) then [PickActor (child priv)] else []))
    /\ (hscrollbar_policy priv = ST_POLICY_ALWAYS ->
        vscrollbar_policy priv = ST_POLICY_ALWAYS ->
        st_scroll_view_paint priv'
        = PaintBackground
          :: (if non_null (child priv) then [PaintActor (child priv)] else [])
          ++ [PaintActor (hscroll priv); PaintActor (vscroll priv)]
        /\ st_scroll_view_pick priv'
           = PickParent
             :: (if non_null (child priv) then [PickActor (child priv)] else [])
             ++ [PickActor (hscroll priv); PickActor (vscroll priv)]).
Proof.
  intros scene box priv.
  destruct (determine_visibility_respects_policy scene
              (avail_width scene box) (avail_height scene box)
              (fst (scrollbar_thickness scene priv))
              (snd (scrollbar_thickness scene priv)) priv)
    as (h & v & l & Hrun & Hha & Hhn & Hva & Hvn & _).
  destruct (determine_visibility_queries_only scene
              (avail_width scene box) (avail_height scene box)
              (fst (scrollbar_thickness scene priv))
              (snd (scrollbar_thickness scene priv)) priv)
    as (h' & v' & l' & Hrun' & Hl).
  rewrite Hrun in Hrun'. injection Hrun' as _ _ <-.
  destruct (queries_only_projections _ Hl) as (_ & Ha & _).
  destruct (queries_only_projections _
              (scrollbar_thickness_log_queries_only scene priv))
    as (_ & Hsa & _).
  exists (with_flags h v priv). eexists.
  split; [exact (allocate_returns _ _ Hrun)|].
  split.
  - cbn [allocations].
    rewrite !allocations_app, !notify_log_allocations, Ha, Hsa, !app_nil_r.
    rewrite described_allocations_boxes.
    destruct (child priv); reflexivity.
  - unfold st_scroll_view_paint, st_scroll_view_pick.
    split.
    + intros Hh Hv. rewrite with_flags_hvisible, with_flags_vvisible.
      rewrite (Hhn Hh), (Hvn Hv).
      change (child (with_flags false false priv)) with (child priv).
      destruct (child priv); split; reflexivity.
    + intros Hh Hv. rewrite with_flags_hvisible, with_flags_vvisible.
      rewrite (Hha Hh), (Hva Hv).
      change (child (with_flags true true priv)) with (child priv).
      destruct (child priv); split; reflexivity.
Qed.

(** ** The GObject properties *)

(** Properties read back what was written. Setting either policy property
    stores the value and leaves the other policy alone; setting either
    boolean property stores the value; reading the property afterwards
    returns it. The scrollbar and visibility properties cannot be set: the
    attempt changes nothing and warns. *)
Theorem property_round_trip :
  forall (priv : StScrollViewPrivate),
    (forall p : StPolicyType,
        exists priv' log,
          st_scroll_view_set_property (PROP_NOTIFIED PROP_HSCROLLBAR_POLICY) p priv
          = Returns tt priv' log
          /\ st_scroll_view_get_property (PROP_NOTIFIED PROP_HSCROLLBAR_POLICY) priv'
             = Returns p priv' []
          /\ st_scroll_view_get_property (PROP_NOTIFIED PROP_VSCROLLBAR_POLICY) priv'
             = Returns (vscrollbar_policy priv) priv' [])
    /\ (forall p : StPolicyType,
        exists priv' log,
          st_scroll_view_set_property (PROP_NOTIFIED PROP_VSCROLLBAR_POLICY) p priv
          = Returns tt priv' log
          /\ st_scroll_view_get_property (PROP_NOTIFIED PROP_VSCROLLBAR_POLICY) priv'
             = Returns p priv' []
          /\ st_scroll_view_get_property (PROP_NOTIFIED PROP_HSCROLLBAR_POLICY) priv'
             = Returns (hscrollbar_policy priv) priv' [])
    /\ (forall b : bool,
        exists priv' log,
          st_scroll_view_set_property (PROP_NOTIFIED PROP_MOUSE_SCROLL) b priv
          = Returns tt priv' log
          /\ st_scroll_view_get_property (PROP_NOTIFIED PROP_MOUSE_SCROLL) priv'
             = Returns b priv' [])
    /\ (forall b : bool,
        exists priv' log,
          st_scroll_view_set_property (PROP_NOTIFIED PROP_OVERLAY_SCROLLBARS) b priv
          = Returns tt priv' log
          /\ st_scroll_view_get_property (PROP_NOTIFIED PROP_OVERLAY_SCROLLBARS) priv'
             = Returns b priv' [])
    /\ (forall a : option ActorId,
        st_scroll_view_set_property PROP_HSCROLL a priv = Returns tt priv [Warning]
        /\ st_scroll_view_set_property PROP_VSCROLL a priv
           = Returns tt priv [Warning])
    /\ (forall b : bool,
        st_scroll_view_set_property (PROP_NOTIFIED PROP_HSCROLLBAR_VISIBLE) b priv
        = Returns tt priv [Warning]
        /\ st_scroll_view_set_property (PROP_NOTIFIED PROP_VSCROLLBAR_VISIBLE) b priv
           = Returns tt priv [Warning]).
Proof.
  intros priv.
  destruct priv as [c ha hs va vs hp vp rs cs rss css ms ov hv0 vv0].
  repeat split.
  - intro p. destruct hp, p, vp; do 2 eexists; repeat split.
  - intro p. destruct hp, p, vp; do 2 eexists; repeat split.
  - intro b. destruct ms, b; do 2 eexists; repeat split.
  - intro b. destruct ov, b; do 2 eexists; repeat split.
Qed.

(** ** The fade effect *)

Lemma Qnonzero_cases (x : Q) :
  (Qnonzero x = true /\ ~ x == 0) \/ (Qnonzero x = false /\ x == 0).
Proof.
  unfold Qnonzero. destruct (Qeq_bool x 0) eqn:E.
  - right. split; [reflexivity|]. apply Qeq_bool_iff. exact E.
  - left. split; [reflexivity|]. apply Qeq_bool_neq. exact E.
Qed.

Ltac split_margins l r t b :=
  destruct (Qnonzero_cases l) as [[-> ?]|[-> ?]];
  destruct (Qnonzero_cases r) as [[-> ?]|[-> ?]];
  destruct (Qnonzero_cases t) as [[-> ?]|[-> ?]];
  destruct (Qnonzero_cases b) as [[-> ?]|[-> ?]];
  cbn [orb].

Lemma update_fade_effect_cases
  (fade_effect : FadeEffect) (fade_margins : ClutterMargin) :
  exists fade_effect' calls,
    st_scroll_view_update_fade_effect fade_effect fade_margins
    = (fade_effect', calls)
    /\ (fade_effect' = None
        <-> margin_left fade_margins == 0 /\ margin_right fade_margins == 0
            /\ margin_top fade_margins == 0 /\ margin_bottom fade_margins == 0)
    /\ (fade_effect' <> None -> fade_effect' = Some fade_margins)
    /\ (In AddEffectWithName calls <-> fade_effect = None /\ fade_effect' <> None)
    /\ (In RemoveEffect calls <-> fade_effect <> None /\ fade_effect' = None)
    /\ (In (SetFadeMargins fade_margins) calls <-> fade_effect' <> None)
    /\ ~ In ParentStyleChanged calls.
Proof.
  destruct fade_margins as [l r t b].
  unfold st_scroll_view_update_fade_effect. cbn [margin_left margin_right
    margin_top margin_bottom].
  split_margins l r t b; destruct fade_effect as [m|];
    cbn [app]; do 2 eexists; (split; [reflexivity|]);
    cbn [In]; repeat split; try intro; intros;
    repeat match goal with
      | H : _ \/ _ |- _ => destruct H
      | H : _ /\ _ |- _ => destruct H
      | H : False |- _ => destruct H
      end;
    try discriminate; try congruence; try tauto; auto.
Qed.

(** [st_scroll_view_update_fade_effect] leaves the effect attached, holding
    the given margins, exactly when one of the four margins is not 0. It
    adds the effect only when none was attached and one is needed, removes
    it only when one was attached and none is needed, and sets the margins
    exactly when an effect is attached afterwards. *)
Theorem update_fade_effect_attached_iff_nonzero :
  forall (fade_effect : FadeEffect) (fade_margins : ClutterMargin),
  exists fade_effect' calls,
    st_scroll_view_update_fade_effect fade_effect fade_margins
    = (fade_effect', calls)
    /\ (fade_effect' = None
        <-> margin_left fade_margins == 0 /\ margin_right fade_margins == 0
            /\ margin_top fade_margins == 0 /\ margin_bottom fade_margins == 0)
    /\ (fade_effect' <> None -> fade_effect' = Some fade_margins)
    /\ (In AddEffectWithName calls <-> fade_effect = None /\ fade_effect' <> None)
    /\ (In RemoveEffect calls <-> fade_effect <> None /\ fade_effect' = None)
    /\ (In (SetFadeMargins fade_margins) calls <-> fade_effect' <> None).
Proof.
  intros fade_effect fade_margins.
  destruct (update_fade_effect_cases fade_effect fade_margins)
    as (fade_effect' & calls & Hrun & Hnone & Hsome & Hadd & Hremove & Hset & _).
  exists fade_effect', calls. repeat split; tauto.
Qed.

(** Margins that are all 0, after margins that are not, detach the effect
    again: whatever was attached before, the view ends without effect, and
    the second call removes the effect the first one had attached. *)
Theorem fade_effect_zero_after_nonzero :
  forall (fade_effect : FadeEffect) (fade_margins zero : ClutterMargin),
    ~ (margin_left fade_margins == 0 /\ margin_right fade_margins == 0
       /\ margin_top fade_margins == 0 /\ margin_bottom fade_margins == 0) ->
    margin_left zero == 0 -> margin_right zero == 0 ->
    margin_top zero == 0 -> margin_bottom zero == 0 ->
    st_scroll_view_update_fade_effect
      (fst (st_scroll_view_update_fade_effect fade_effect fade_margins)) zero
    = (None, [RemoveEffect]).
Proof.
  intros fade_effect [l r t b] [zl zr zt zb] Hnz Hl Hr Ht Hb.
  cbn [margin_left margin_right margin_top margin_bottom] in *.
  unfold st_scroll_view_update_fade_effect.
  cbn [margin_left margin_right margin_top margin_bottom].
  split_margins zl zr zt zb; try contradiction.
  split_margins l r t b; cbn [fst]; try reflexivity.
  exfalso. apply Hnz. repeat split; assumption.
Qed.

Lemma fade_effect_zero_after_nonzero_witness :
  st_scroll_view_update_fade_effect
    (fst (st_scroll_view_update_fade_effect None (mkMargin 0 0 10 10)))
    (mkMargin 0 0 0 0)
  = (None, [RemoveEffect]).
Proof.
  apply fade_effect_zero_after_nonzero; try reflexivity.
  intros (_ & _ & H & _). discriminate H.
Defined.

(** A style change touches the fade effect only if the theme defines one of
    the two fade offsets; an offset the theme does not define counts as 0.
    Each offset is narrowed from [double] to [float] on its way into the
    margin, whatever that conversion makes of it: the narrowed vertical
    offset goes to the top and bottom margins and the narrowed horizontal
    one to the left and right margins, and the effect is attached
    afterwards exactly when a narrowed offset is not 0 (an offset too small
    for a [float] attaches none). The parent class's handler is always
    chained up to, last. *)
Theorem style_changed_fade_effect :
  forall (to_float : Q -> Q) (vfade hfade : option Q) (fade_effect : FadeEffect),
  exists fade_effect' calls,
    st_scroll_view_style_changed to_float vfade hfade fade_effect
    = (fade_effect', calls ++ [ParentStyleChanged])
    /\ ~ In ParentStyleChanged calls
    /\ (vfade = None -> hfade = None ->
        fade_effect' = fade_effect /\ calls = [])
    /\ (vfade <> None \/ hfade <> None ->
        let v := to_float (match vfade with Some v => v | None => 0 end) in
        let h := to_float (match hfade with Some h => h | None => 0 end) in
        (fade_effect' = None <-> v == 0 /\ h == 0)
        /\ (fade_effect' <> None -> fade_effect' = Some (mkMargin h h v v))).
Proof.
  intros to_float vfade hfade fade_effect.
  unfold st_scroll_view_style_changed.
  destruct vfade as [v|], hfade as [h|]; cbn [orb];
    try (exists fade_effect, []; split; [reflexivity|];
         split; [intros []|]; split; [split; reflexivity|];
         intros [Hd|Hd]; contradiction);
    match goal with
    | |- context [st_scroll_view_update_fade_effect ?e ?m] =>
        destruct (update_fade_effect_cases e m)
          as (fade_effect' & calls & Hrun & Hnone & Hsome & _ & _ & _ & Hparent);
        rewrite Hrun
    end;
    cbn [margin_left margin_right margin_top margin_bottom] in Hnone;
    exists fade_effect', calls; (split; [reflexivity|]);
    (split; [exact Hparent|]);
    (split; [intros; discriminate|]);
    intros _; cbv zeta; (split; [|exact Hsome]);
    rewrite Hnone; intuition auto with qarith.
Qed.

(** ** Preferred height *)

(** A preferred-height query with a child present. The child's height is
    measured once, at the theme-adjusted width, less the vertical
    scrollbar's allowance (a [float] subtraction, rounded) whenever the
    vertical policy is ALWAYS or AUTOMATIC (overlaid scrollbars or not). The
    minimum handed to the theme's adjustment is the child's minimum height
    under the NEVER vertical policy and 0 otherwise, the natural height is
    the child's; both grow (a [float] addition each, rounded) by the
    horizontal scrollbar's allowance at the measured width exactly when
    space is reserved for the horizontal scrollbar. The query changes
    nothing in the private data and only asks sizes. *)
Theorem preferred_height_with_child :
  forall (scene : Scene) (priv : StScrollViewPrivate) (ch : ActorId)
         (for_width : gfloat) (min_p natural_p : option gfloat),
    child priv = Some ch ->
    let measured :=
      match vscrollbar_policy priv with
      | ST_POLICY_ALWAYS | ST_POLICY_AUTOMATIC =>
          fsub (theme_adjust_for_width scene for_width)
            (scrollbar_width scene (vscroll priv) (px (-1)))
      | ST_POLICY_NEVER | ST_POLICY_EXTERNAL =>
          theme_adjust_for_width scene for_width
      end in
    let child_min := fst (actor_preferred_height scene ch measured) in
    let child_natural := snd (actor_preferred_height scene ch measured) in
    let min :=
      if policy_eqb (vscrollbar_policy priv) ST_POLICY_NEVER
      then child_min else px 0 in
    let allowance := scrollbar_height scene (hscroll priv) measured in
    let reserved :=
      reserves_space (hscrollbar_policy priv) (overlay_scrollbars priv) in
    st_scroll_view_get_preferred_height scene for_width min_p natural_p priv
    = Returns
        (theme_adjust_preferred_height scene
           (store min_p (if reserved then fadd min allowance else min))
           (store natural_p
              (if reserved then fadd child_natural allowance
               else child_natural)))
        priv
        (GetPreferredWidth ch (px (-1))
         :: scrollbar_width_log scene (vscroll priv) (px (-1))
         ++ [GetPreferredHeight ch measured]
         ++ (if reserved
             then scrollbar_height_log scene (hscroll priv) measured else [])).
Proof.
  intros scene priv ch for_width min_p natural_p Hchild.
  unfold st_scroll_view_get_preferred_height, bind at 1, get_priv.
  rewrite Hchild.
  unfold bind at 1, clutter_actor_get_preferred_width at 1, bind at 1, emit, ret.
  destruct (actor_preferred_width scene ch (px (-1))) as [child_min_width ?].
  cbv beta iota zeta.
  unfold bind at 1. rewrite get_scrollbar_width_returns.
  destruct (hscrollbar_policy priv), (vscrollbar_policy priv),
    (overlay_scrollbars priv);
    cbv beta iota zeta delta
      [reserves_space policy_eqb negb bind ret emit
       clutter_actor_get_preferred_height];
    match goal with
    | |- context [actor_preferred_height scene ch ?w] =>
        destruct (actor_preferred_height scene ch w) as [child_min child_natural]
    end;
    cbv beta iota zeta delta [fst snd];
    rewrite ?get_scrollbar_height_returns;
    destruct min_p, natural_p; cbn [store];
    normalize_log; reflexivity.
Qed.

Lemma preferred_height_with_child_witness :
  exists log,
    st_scroll_view_get_preferred_height Example.scenario_scene (px 300)
      (Some (px 0)) (Some (px 0)) Example.view_with_child
    = Returns (Some (px 16), Some (px 166)) Example.view_with_child log.
Proof.
  eexists.
  exact (@preferred_height_with_child Example.scenario_scene
           Example.view_with_child Example.child_actor (px 300)
           (Some (px 0)) (Some (px 0)) eq_refl).
Defined.

(** ** A view fresh from construction *)

(** A view as [st_scroll_view_init] builds it has no child and two
    AUTOMATIC policies, and its first [allocate], in any scene and with any
    box, makes both scrollbars visible, notifies both visibility properties
    and gives boxes to the two scrollbars only. *)
Theorem fresh_view_first_allocate :
  forall (scene : Scene) (box : ClutterActorBox) (new_adjustment : StAdjustment)
         (hbar vbar : ActorId),
  exists priv' log,
    st_scroll_view_allocate scene box
      (st_scroll_view_init new_adjustment hbar vbar)
    = Returns tt priv' log
    /\ hscrollbar_visible priv' = true
    /\ vscrollbar_visible priv' = true
    /\ notifications log = [PROP_HSCROLLBAR_VISIBLE; PROP_VSCROLLBAR_VISIBLE]
    /\ map fst (allocations log) = [Some vbar; Some hbar].
Proof.
  intros scene box new_adjustment hbar vbar.
  set (priv := st_scroll_view_init new_adjustment hbar vbar).
  assert (Hrun :
    determine_visibility scene (avail_width scene box) (avail_height scene box)
      (fst (scrollbar_thickness scene priv))
      (snd (scrollbar_thickness scene priv)) priv
    = Returns (true, true) priv []) by reflexivity.
  do 2 eexists. split; [exact (allocate_returns _ _ Hrun)|].
  split; [reflexivity|]. split; [reflexivity|].
  destruct (queries_only_projections _
              (scrollbar_thickness_log_queries_only scene priv))
    as (Hsn & Hsa & _).
  cbn [notifications allocations app].
  rewrite !notifications_app, !allocations_app, Hsn, Hsa,
    described_allocations_notifications, described_allocations_boxes.
  split; reflexivity.
Qed.
